(** * Cloud Derby driving controller: navigation decision engine

    A shallow embedding of [src/cloud/controller/js/navigation.js] (class
    [Navigation]) and of the message validator of the controller's
    application file ([isMessageValid], [inboudMessageHandler]), with the
    properties of the specification proved or refuted against it.

    Conventions of the embedding.
    - A JavaScript number is a [number]: an exact rational, one of the two
      infinities, or NaN.  Binary rounding of IEEE doubles and the sign of
      zero are not modelled (a zero divisor counts as +0); comparisons with
      NaN are false, as in JavaScript.
    - Strings are [string]s of 8-bit characters; lower-casing acts on the
      letters A-Z.
    - A thrown [TypeError] (property access on [undefined]) is the [TypeError]
      case of [result]; a rejected promise is modelled the same way.
    - [Math.random] is an explicit source threaded through the calls.
    - The result of the object-detection call is an argument. *)

From Stdlib Require Import ZArith QArith Qround Qabs Lqa Lia List String Ascii Bool.
Import ListNotations.

(** ** JavaScript numbers *)

Declare Scope js_scope.
Delimit Scope js_scope with js.

Module Num.

Inductive number : Type :=
| Fin (q : Q)
| PInf
| NInf
| NaN.

Definition int (z : Z) : number := Fin (inject_Z z).

Definition Qltb (a b : Q) : bool :=
  match a ?= b with Lt => true | _ => false end.

Definition Qeqb (a b : Q) : bool :=
  match a ?= b with Eq => true | _ => false end.

(** [a < b] *)
Definition ltb (a b : number) : bool :=
  match a, b with
  | NaN, _ | _, NaN => false
  | Fin p, Fin q => Qltb p q
  | Fin _, PInf => true
  | Fin _, NInf => false
  | PInf, _ => false
  | NInf, NInf => false
  | NInf, _ => true
  end.

(** [a <= b] *)
Definition leb (a b : number) : bool :=
  match a, b with
  | NaN, _ | _, NaN => false
  | Fin p, Fin q => Qle_bool p q
  | Fin _, PInf => true
  | Fin _, NInf => false
  | PInf, PInf => true
  | PInf, _ => false
  | NInf, _ => true
  end.

(** [a == b] on numbers *)
Definition eqb (a b : number) : bool :=
  match a, b with
  | Fin p, Fin q => Qeqb p q
  | PInf, PInf => true
  | NInf, NInf => true
  | _, _ => false
  end.

(** unary [-a] *)
Definition neg (a : number) : number :=
  match a with
  | Fin q => Fin (- q)
  | PInf => NInf
  | NInf => PInf
  | NaN => NaN
  end.

Definition add (a b : number) : number :=
  match a, b with
  | NaN, _ | _, NaN => NaN
  | Fin p, Fin q => Fin (p + q)
  | PInf, NInf | NInf, PInf => NaN
  | PInf, _ | _, PInf => PInf
  | NInf, _ | _, NInf => NInf
  end.

Definition sub (a b : number) : number := add a (neg b).

(** An infinity with the sign of [q] times the sign [pos]; [0 * Infinity]
    is NaN. *)
Definition signed_inf (q : Q) (pos : bool) : number :=
  match q ?= 0 with
  | Eq => NaN
  | Gt => if pos then PInf else NInf
  | Lt => if pos then NInf else PInf
  end.

Definition mul (a b : number) : number :=
  match a, b with
  | NaN, _ | _, NaN => NaN
  | Fin p, Fin q => Fin (p * q)
  | Fin p, PInf | PInf, Fin p => signed_inf p true
  | Fin p, NInf | NInf, Fin p => signed_inf p false
  | PInf, PInf | NInf, NInf => PInf
  | PInf, NInf | NInf, PInf => NInf
  end.

Definition div (a b : number) : number :=
  match a, b with
  | NaN, _ | _, NaN => NaN
  | Fin p, Fin q =>
      if Qeqb q 0 then signed_inf p true else Fin (p / q)
  | Fin _, PInf | Fin _, NInf => Fin 0
  | PInf, Fin q => if Qltb q 0 then NInf else PInf
  | NInf, Fin q => if Qltb q 0 then PInf else NInf
  | _, _ => NaN
  end.

(** [Math.abs] *)
Definition abs (a : number) : number :=
  match a with
  | Fin q => Fin (Qabs q)
  | PInf | NInf => PInf
  | NaN => NaN
  end.

(** [Math.max] of two arguments *)
Definition max (a b : number) : number :=
  match a, b with
  | NaN, _ | _, NaN => NaN
  | _, _ => if ltb a b then b else a
  end.

(** [Math.floor] *)
Definition floor (a : number) : number :=
  match a with
  | Fin q => int (Qfloor q)
  | _ => a
  end.

(** [Math.round]: the nearest integer, halves towards +Infinity. *)
Definition round (a : number) : number :=
  match a with
  | Fin q => int (Qfloor (q + (1 # 2)))
  | _ => a
  end.

(** Truthiness of a number in a condition: [0] and NaN are falsy. *)
Definition truthy (a : number) : bool :=
  match a with
  | Fin q => negb (Qeqb q 0)
  | NaN => false
  | _ => true
  end.

End Num.

Export Num(number, Fin, PInf, NInf, NaN).

Infix "+" := Num.add : js_scope.
Infix "-" := Num.sub : js_scope.
Infix "*" := Num.mul : js_scope.
Infix "/" := Num.div : js_scope.
Infix "<?" := Num.ltb : js_scope.
Infix "<=?" := Num.leb : js_scope.
Notation "- a" := (Num.neg a) : js_scope.

(** Integer literals in [js_scope] are numbers. *)
Definition number_to_Z (a : number) : option Z :=
  match a with
  | Fin (Qmake n 1) => Some n
  | _ => None
  end.

Number Notation number Num.int number_to_Z : js_scope.

(** ** JavaScript strings *)

Module Str.

Definition lower_ascii (c : ascii) : ascii :=
  let n := nat_of_ascii c in
  if ((65 <=? n) && (n <=? 90))%nat then ascii_of_nat (n + 32) else c.

(** [s.toLowerCase()] and, in the locales the controller runs in,
    [s.toLocaleLowerCase()]. *)
Fixpoint toLowerCase (s : string) : string :=
  match s with
  | EmptyString => EmptyString
  | String c s' => String (lower_ascii c) (toLowerCase s')
  end.

(** Does [t] occur in [s] at position 0? *)
Fixpoint startsWith (t s : string) : bool :=
  match t, s with
  | EmptyString, _ => true
  | String _ _, EmptyString => false
  | String a t', String b s' => Ascii.eqb a b && startsWith t' s'
  end.

(** [s.indexOf(t)]: the least position at which [t] occurs in [s], or -1. *)
Fixpoint indexOf (s t : string) : Z :=
  if startsWith t s then 0%Z
  else
    match s with
    | EmptyString => (-1)%Z
    | String _ s' =>
        let r := indexOf s' t in
        if (r <? 0)%Z then (-1)%Z else (r + 1)%Z
    end.

(** [t] is a substring of [s]. *)
Definition contains (s t : string) : Prop :=
  exists pre post : string, s = (pre ++ t ++ post)%string.

End Str.

(** ** Errors and the random source *)

Inductive result (A : Type) : Type :=
| Ok (a : A)
| TypeError.

Arguments Ok {A} a.
Arguments TypeError {A}.

Definition bind {A B : Type} (r : result A) (k : A -> result B) : result B :=
  match r with
  | Ok a => k a
  | TypeError => TypeError
  end.

Notation "'let*' x ':=' r 'in' k" := (bind r (fun x => k))
  (at level 10, x pattern, r at level 100, k at level 200).

(** The values [Math.random()] returns, in order, and how many were drawn. *)
Record Random : Type := mkRandom {
  draws : nat -> Q;
  drawn : nat
}.

Definition Math_random (r : Random) : number * Random :=
  (Fin (draws r (drawn r)), mkRandom (draws r) (S (drawn r))).

(** Every value of the source lies in [0, 1), as [Math.random] promises. *)
Definition unit_interval (r : Random) : Prop :=
  forall n : nat, 0 <= draws r n /\ draws r n < 1.

(** ** Data model *)

(** One object found by object detection: [visionResponse.bBoxes[i]]. *)
Record BBox : Type := mkBBox {
  label : string;
  score : number;
  x : number;
  y : number;
  w : number;
  h : number
}.

Record VisionResponse : Type := mkVisionResponse {
  bBoxes : list BBox
}.

Record CarState : Type := mkCarState {
  ballsCollected : number;
  color : string;
  obstacleFound : option bool
}.

(** A sensor message; [carState] and [timestampMs] may be absent. *)
Record SensorMessage : Type := mkSensorMessage {
  timestampMs : option number;
  carState : option CarState
}.

Inductive Mode : Type := MANUAL_MODE | AUTOMATIC_MODE | DEBUG_MODE.

(** The goal tags.  [navigation.js] imports [SEEK_BALL_TURN], [CHECK_GRIP],
    [GO2BASE] and [SEEK_HOME_TURN] by name; the other three are named after
    the setters [setGoalSeekBallMove], [setGoalGo2Ball] and
    [setGoalGameEnd]. *)
Inductive Goal : Type :=
| SEEK_BALL_TURN
| SEEK_BALL_MOVE
| GO2BALL
| CHECK_GRIP
| GO2BASE
| SEEK_HOME_TURN
| GAME_END.

Definition Goal_eqb (a b : Goal) : bool :=
  match a, b with
  | SEEK_BALL_TURN, SEEK_BALL_TURN
  | SEEK_BALL_MOVE, SEEK_BALL_MOVE
  | GO2BALL, GO2BALL
  | CHECK_GRIP, CHECK_GRIP
  | GO2BASE, GO2BASE
  | SEEK_HOME_TURN, SEEK_HOME_TURN
  | GAME_END, GAME_END => true
  | _, _ => false
  end.

(** Modelled from the spec: the primitive actions of a drive command; the
    class [DriveMessage] of [drive-message.js] is not part of the sources.
    One constructor per method of the class that [navigation.js] calls to
    add an action. *)
Inductive Action : Type :=
| SetSpeed (speed : number)
| MakeTurn (angle : number)
| TurnRight (angle : number)
| Drive (mm : number)
| GripperOpen
| GripperClose
| SendSensorMessage.

(** Modelled from the spec: a drive command is a mode flag, a goal tag, a
    correlation identifier and the ordered list of its actions, with the
    ball-count increments of [addBallCount].  A field nobody has set yet is
    [None]. *)
Record DriveMessage : Type := mkDriveMessage {
  mode : option Mode;
  goal : option Goal;
  correlationID : option number;
  ballCount : nat;
  actions : list Action
}.

(** Modelled from the spec: the methods of [DriveMessage] that the
    controller calls; each sets one field or appends one action. *)
Module Command.

(** [new DriveMessage()] *)
Definition new : DriveMessage := mkDriveMessage None None None 0 [].

Definition setMode (m : Mode) (c : DriveMessage) : DriveMessage :=
  mkDriveMessage (Some m) (goal c) (correlationID c) (ballCount c) (actions c).

Definition setGoal (g : Goal) (c : DriveMessage) : DriveMessage :=
  mkDriveMessage (mode c) (Some g) (correlationID c) (ballCount c) (actions c).

Definition push (a : Action) (c : DriveMessage) : DriveMessage :=
  mkDriveMessage (mode c) (goal c) (correlationID c) (ballCount c)
    (actions c ++ [a]).

Definition setModeAutomatic := setMode AUTOMATIC_MODE.
Definition setGoalSeekBallTurn := setGoal SEEK_BALL_TURN.
Definition setGoalSeekBallMove := setGoal SEEK_BALL_MOVE.
Definition setGoalSeekHomeTurn := setGoal SEEK_HOME_TURN.
Definition setGoalGo2Ball := setGoal GO2BALL.
Definition setGoalGo2Base := setGoal GO2BASE.
Definition setGoalCheck4Grip := setGoal CHECK_GRIP.
Definition setGoalGameEnd := setGoal GAME_END.

Definition setSpeed (v : number) := push (SetSpeed v).
Definition makeTurn (a : number) := push (MakeTurn a).
Definition turnRight (a : number) := push (TurnRight a).
Definition drive (d : number) := push (Drive d).
Definition gripperOpen := push GripperOpen.
Definition gripperClose := push GripperClose.
Definition sendSensorMessage := push SendSensorMessage.

Definition addBallCount (c : DriveMessage) : DriveMessage :=
  mkDriveMessage (mode c) (goal c) (correlationID c) (S (ballCount c))
    (actions c).

Definition setCorrelationID (id : option number) (c : DriveMessage)
  : DriveMessage :=
  mkDriveMessage (mode c) (goal c) id (ballCount c) (actions c).

End Command.

(** ** Settings

    [game-settings.js] is not part of the sources: its constants are the
    fields of a record the navigation is parameterised by. *)

Record Camera : Type := mkCamera {
  H_FIELD_OF_VIEW : number;
  FOCAL_LENGTH_MM : number;
  SENSOR_HEIGHT_MM : number
}.

Record Settings : Type := mkSettings {
  MAX_SPEED : number;
  BALLS_NEEDED : number;
  BALL_LABEL_SUFFIX : string;
  HOME_LABEL_SUFFIX : string;
  BALL_SIZE_MM : number;
  HOME_SIZE_MM : number;
  MIN_DISTANCE_TO_CAMERA_MM : number;
  camera : Camera
}.

(** The simulation engine of [simulation.js], reduced to what
    [navigate2ball] reads from it. *)
Record DriveMessageSimulator : Type := mkSimulator {
  simulate : bool;
  nextDrivingCommand : DriveMessage
}.

(** ** The navigation logic ([navigation.js]) *)

Section Navigation.

Variable settings : Settings.
Variable driveSimulation : DriveMessageSimulator.

(** The command history the [Navigation] object was constructed with,
    oldest command first. *)
Variable commandHistory : list DriveMessage.

Local Open Scope js_scope.

Definition TURN_SPEED : number := MAX_SPEED settings / 10.
Definition HIGH_BALL_TOP_BOUND : number := Fin 0.2.
Definition HIGH_BALL_SCORE : number := Fin 0.5.

(** [command.goal == goal] for a command of the history. *)
Definition hasGoal (g : Goal) (command : DriveMessage) : bool :=
  match goal command with
  | Some g' => Goal_eqb g' g
  | None => false
  end.

(** The [while] loop of [countGoals]: [i] runs from the length of the
    history down, [result] counts the matching commands passed. *)
Fixpoint countGoals_loop (g : Goal) (i result : nat) : nat :=
  match i with
  | O => result
  | S i' =>
      match nth_error commandHistory i' with
      | Some command =>
          if hasGoal g command
          then countGoals_loop g i' (S result)
          else result
      | None => result (* not reached: [i] never exceeds the length *)
      end
  end.

Definition countGoals (g : Goal) : nat :=
  countGoals_loop g (List.length commandHistory) 0.

(** [str.indexOf(sub) >= 0] on the lower-cased strings. *)
Definition labelContains (lbl sub : string) : bool :=
  (0 <=? Str.indexOf (Str.toLowerCase lbl) (Str.toLowerCase sub))%Z.

(** The false-positive test of [findNearestObject]: a ball high in the
    picture with a low score. *)
Definition falsePositive (obj : BBox) : bool :=
  labelContains (label obj) (BALL_LABEL_SUFFIX settings)
  && (score obj <? HIGH_BALL_SCORE)
  && (y obj <? HIGH_BALL_TOP_BOUND).

(** [Math.max(obj.w, obj.h) * obj.score] *)
Definition thisSize (obj : BBox) : number :=
  Num.max (w obj) (h obj) * score obj.

(** One iteration of the loop of [findNearestObject] on the pair
    [(foundSize, nearestObject)]. *)
Definition consider (objectType : string) (obj : BBox)
  (st : number * option BBox) : number * option BBox :=
  if falsePositive obj then st
  else if labelContains (label obj) objectType then
    if fst st <? thisSize obj then (thisSize obj, Some obj) else st
  else st.

(** [for (var i = bBoxes.length; i--;)]: the boxes from the last to the
    first. *)
Fixpoint findNearestObject_loop (objectType : string) (boxes : list BBox)
  (i : nat) (st : number * option BBox) : number * option BBox :=
  match i with
  | O => st
  | S i' =>
      match nth_error boxes i' with
      | Some obj => findNearestObject_loop objectType boxes i'
                      (consider objectType obj st)
      | None => st (* not reached: [i] never exceeds the length *)
      end
  end.

Definition findNearestObject (objectType : string)
  (visionResponse : VisionResponse) : option BBox :=
  snd (findNearestObject_loop objectType (bBoxes visionResponse)
         (List.length (bBoxes visionResponse)) (Fin 0, None)).

Definition ANGLE_CALIBRATION_MULTIPLIER : number := Fin 0.75.

(** The horizontal centre of a box, as [findAngle] computes it. *)
Definition centerX (bBox : BBox) : number := x bBox + w bBox / 2.

Definition findAngle (bBox : BBox) : number :=
  let angle := (centerX bBox - Fin 0.5)
               * H_FIELD_OF_VIEW (camera settings)
               * ANGLE_CALIBRATION_MULTIPLIER in
  Num.round angle.

(** The distance of [findDistanceMM] before its manual correction. *)
Definition pinholeDistance (bBox : BBox) (realObjectVerticalSizeMm : number)
  : number :=
  let relative_object_size := Num.max (h bBox) (w bBox) in
  (FOCAL_LENGTH_MM (camera settings) * realObjectVerticalSizeMm
     / (relative_object_size * SENSOR_HEIGHT_MM (camera settings)))
  - MIN_DISTANCE_TO_CAMERA_MM settings.

Definition findDistanceMM (bBox : BBox) (realObjectVerticalSizeMm : number)
  : number :=
  let distanceMM := pinholeDistance bBox realObjectVerticalSizeMm in
  let distanceMM :=
    if distanceMM <? 95 then 20
    else if distanceMM <? 325 then distanceMM - 35
    else distanceMM in
  Num.round distanceMM.

Definition ballSearchStrategy (visionResponse : VisionResponse)
  (rnd : Random) : DriveMessage * Random :=
  let command := Command.new in
  let command := Command.setModeAutomatic command in
  if (countGoals SEEK_BALL_TURN <? 5)%nat then
    let angle := 67 in
    let command := Command.setGoalSeekBallTurn command in
    let command := Command.setSpeed TURN_SPEED command in
    let command := Command.makeTurn angle command in
    (command, rnd)
  else
    let command := Command.setGoalSeekBallMove command in
    let minDistanceMm := 100 in
    let maxRandomDistanceMm := 600 in
    let (r1, rnd) := Math_random rnd in
    let distance := minDistanceMm + Num.floor (r1 * maxRandomDistanceMm) in
    let (r2, rnd) := Math_random rnd in
    let distance := if r2 <? Fin 0.25 then - distance else distance in
    let command := Command.setSpeed TURN_SPEED command in
    let command := Command.drive distance command in
    (command, rnd).

Definition homeSearchStrategy (visionResponse : VisionResponse)
  (rnd : Random) : DriveMessage * Random :=
  let command := Command.new in
  let command := Command.setModeAutomatic command in
  let homeTurns := countGoals SEEK_HOME_TURN in
  if (homeTurns <? 5)%nat then
    let angle := 60 in
    let command := Command.setGoalSeekHomeTurn command in
    let command := Command.setSpeed (MAX_SPEED settings) command in
    let command := Command.makeTurn angle command in
    (command, rnd)
  else
    let command := Command.setGoalGo2Base command in
    let minDistanceMm := 200 in
    let maxRandomDistanceMm := 700 in
    let (r1, rnd) := Math_random rnd in
    let distance := minDistanceMm + Num.floor (r1 * maxRandomDistanceMm) in
    let command := Command.setSpeed (MAX_SPEED settings) command in
    let command := Command.drive distance command in
    (command, rnd).

(** [this.commandHistory[this.commandHistory.length - 1].goal == g];
    on an empty history the indexed command is [undefined] and reading
    its goal throws. *)
Definition lastGoalIs (g : Goal) : result bool :=
  match List.length commandHistory with
  | O => TypeError
  | S n =>
      match nth_error commandHistory n with
      | Some command => Ok (hasGoal g command)
      | None => TypeError
      end
  end.

Definition calculateBallDirections (bBox : BBox) (obstacle_found : bool)
  (response : VisionResponse) (rnd : Random)
  : result (DriveMessage * Random) :=
  let angle := findAngle bBox in
  let distance := findDistanceMM bBox (BALL_SIZE_MM settings) in
  let command := Command.new in
  let command := Command.setModeAutomatic command in
  let slowApproachZoneMm := 250 in
  let ballCaptureDistanceMm := 70 in
  let ballCaptureAngle := 10 in
  let EXTRA_DISTANCE := 30 in
  if (Num.abs angle <=? ballCaptureAngle)
     && (distance <=? ballCaptureDistanceMm) then
    let* gripChecked := lastGoalIs CHECK_GRIP in
    if gripChecked then
      let command := Command.setGoalGo2Base command in
      Ok (command, rnd)
    else
      let command := Command.gripperClose command in
      let command := Command.setGoalCheck4Grip command in
      let command := Command.setSpeed (MAX_SPEED settings / 2) command in
      let command := Command.drive (- slowApproachZoneMm) command in
      Ok (command, rnd)
  else
    let speed := MAX_SPEED settings in
    if distance <? slowApproachZoneMm then
      let command := Command.setGoalGo2Ball command in
      let command := Command.makeTurn angle command in
      let command := Command.gripperOpen command in
      let speed := MAX_SPEED settings * Fin 0.05 in
      let distance := distance + EXTRA_DISTANCE in
      let command := Command.setSpeed speed command in
      let command := Command.drive distance command in
      Ok (command, rnd)
    else if obstacle_found then
      Ok (ballSearchStrategy response rnd)
    else
      let command := Command.setGoalGo2Ball command in
      let command := Command.makeTurn angle command in
      let distance := distance - slowApproachZoneMm * Fin 0.5 in
      let command := Command.setSpeed speed command in
      let command := Command.drive distance command in
      Ok (command, rnd).

Definition calculateHomeDirections (bBox : BBox) (obstacle_found : bool)
  (response : VisionResponse) (rnd : Random) : DriveMessage * Random :=
  let angle := findAngle bBox in
  let distance := findDistanceMM bBox (HOME_SIZE_MM settings) in
  let command := Command.new in
  let command := Command.setModeAutomatic command in
  let BALL_RELEASE_DISTANCE := 850 in
  let EXTRA_DISTANCE := 100 in
  if distance <? BALL_RELEASE_DISTANCE then
    let command := Command.addBallCount command in
    let command := Command.gripperOpen command in
    let command := Command.setSpeed (MAX_SPEED settings / 10) command in
    let command := Command.drive (- 100) command in
    let command := Command.setSpeed (MAX_SPEED settings) command in
    let command := Command.drive (- 1000) command in
    let command := Command.setSpeed TURN_SPEED command in
    let command := Command.turnRight 90 command in
    let command := Command.gripperClose command in
    let command := Command.setGoalGo2Ball command in
    (command, rnd)
  else if obstacle_found then
    homeSearchStrategy response rnd
  else
    let command := Command.setGoalGo2Base command in
    let command := Command.setSpeed TURN_SPEED command in
    let command := Command.makeTurn angle command in
    let command := Command.setSpeed (MAX_SPEED settings) command in
    let command :=
      Command.drive (distance - BALL_RELEASE_DISTANCE + EXTRA_DISTANCE)
        command in
    (command, rnd).

(** [carState.obstacleFound != undefined && carState.obstacleFound] *)
Definition obstacleSeen (cs : CarState) : bool :=
  match obstacleFound cs with
  | Some true => true
  | _ => false
  end.

(** Reading a field of [sensorMessage.carState] throws when the car
    state is missing. *)
Definition readCarState (sensorMessage : SensorMessage) : result CarState :=
  match carState sensorMessage with
  | Some cs => Ok cs
  | None => TypeError
  end.

(** The tail of [navigate2home] and [navigate2ball]: the correlation ID
    and the request for the next sensor message. *)
Definition finishCommand (sensorMessage : SensorMessage)
  (command : DriveMessage) : DriveMessage :=
  let command :=
    Command.setCorrelationID (timestampMs sensorMessage) command in
  Command.sendSensorMessage command.

Definition navigate2home (sensorMessage : SensorMessage)
  (response : VisionResponse) (rnd : Random)
  : result (DriveMessage * Random) :=
  let* cs := readCarState sensorMessage in
  let objectLabel := (color cs ++ HOME_LABEL_SUFFIX settings)%string in
  let bBox := findNearestObject objectLabel response in
  let obstacle_found := obstacleSeen cs in
  let (command, rnd) :=
    match bBox with
    | Some bBox => calculateHomeDirections bBox obstacle_found response rnd
    | None => homeSearchStrategy response rnd
    end in
  Ok (finishCommand sensorMessage command, rnd).

Definition navigate2ball (sensorMessage : SensorMessage)
  (response : VisionResponse) (rnd : Random)
  : result (DriveMessage * Random) :=
  if simulate driveSimulation then
    Ok (nextDrivingCommand driveSimulation, rnd)
  else
    let* cs := readCarState sensorMessage in
    let objectLabel := (color cs ++ BALL_LABEL_SUFFIX settings)%string in
    let bBox := findNearestObject objectLabel response in
    let obstacle_found := obstacleSeen cs in
    let* (command, rnd) :=
      match bBox with
      | Some bBox => calculateBallDirections bBox obstacle_found response rnd
      | None => Ok (ballSearchStrategy response rnd)
      end in
    Ok (finishCommand sensorMessage command, rnd).

Definition gameOver (sensorMessage : SensorMessage) : DriveMessage :=
  let command := Command.new in
  let command :=
    Command.setCorrelationID (timestampMs sensorMessage) command in
  let command := Command.setGoalGameEnd command in
  let command := Command.sendSensorMessage command in
  command.

(** [nextMove]: [response] is what object detection returns for the
    picture of [sensorMessage]. *)
Definition nextMove (sensorMessage : SensorMessage)
  (response : VisionResponse) (rnd : Random)
  : result (DriveMessage * Random) :=
  let* cs := readCarState sensorMessage in
  if (0 <? countGoals GO2BASE)%nat || (0 <? countGoals SEEK_HOME_TURN)%nat
  then navigate2home sensorMessage response rnd
  else if ballsCollected cs <? BALLS_NEEDED settings
  then navigate2ball sensorMessage response rnd
  else Ok (gameOver sensorMessage, rnd).

End Navigation.

(** ** Intake of sensor messages (the controller's application file) *)

Module Controller.

Local Open Scope js_scope.

(** The module-level variables the message handler reads and writes. *)
Record State : Type := mkState {
  totalMessagesReceived : nat;
  rejectedOutOfOrderMessages : nat;
  rejectedFormatMessages : nat;
  totalErrors : nat;
  maxMsgTimeStampMs : number;
  inboundMsgHistory : list SensorMessage;
  currentDrivingMode : Mode
}.

Definition MAX_MSG_AGE_SEC : number := 60.
Definition MAX_INBOUND_HISTORY : nat := 60 * 60.

(** [!msg.timestampMs]: the field is missing, 0 or NaN. *)
Definition noTimestamp (msg : SensorMessage) : bool :=
  match timestampMs msg with
  | Some t => negb (Num.truthy t)
  | None => true
  end.

(** The number a timestamp field stands for in a comparison; a missing
    field compares as NaN. *)
Definition timestampOf (msg : SensorMessage) : number :=
  match timestampMs msg with
  | Some t => t
  | None => NaN
  end.

Definition countFormatReject (st : State) : State :=
  mkState (totalMessagesReceived st) (rejectedOutOfOrderMessages st)
    (S (rejectedFormatMessages st)) (totalErrors st)
    (maxMsgTimeStampMs st) (inboundMsgHistory st) (currentDrivingMode st).

Definition countOutOfOrderReject (st : State) : State :=
  mkState (totalMessagesReceived st) (S (rejectedOutOfOrderMessages st))
    (rejectedFormatMessages st) (totalErrors st)
    (maxMsgTimeStampMs st) (inboundMsgHistory st) (currentDrivingMode st).

Definition setMaxMsgTimeStampMs (t : number) (st : State) : State :=
  mkState (totalMessagesReceived st) (rejectedOutOfOrderMessages st)
    (rejectedFormatMessages st) (totalErrors st)
    t (inboundMsgHistory st) (currentDrivingMode st).

(** [isMessageValid(msg)]; [now] is [new Date().getTime()]. *)
Definition isMessageValid (now : number) (msg : SensorMessage) (st : State)
  : bool * State :=
  if noTimestamp msg then (false, countFormatReject st)
  else if timestampOf msg <? maxMsgTimeStampMs st then
    (false, countOutOfOrderReject st)
  else
    let st := setMaxMsgTimeStampMs (timestampOf msg) st in
    let oldestAllowedMs := now - MAX_MSG_AGE_SEC * 1000 in
    if timestampOf msg <? oldestAllowedMs then
      (false, countOutOfOrderReject st)
    else (true, st).

(** [saveInboundMessage]: a full history loses its oldest tenth first. *)
Definition saveInboundMessage (msg : SensorMessage) (st : State) : State :=
  let history := inboundMsgHistory st in
  let history :=
    if (MAX_INBOUND_HISTORY <=? List.length history)%nat
    then skipn (List.length history / 10) history
    else history in
  mkState (totalMessagesReceived st) (rejectedOutOfOrderMessages st)
    (rejectedFormatMessages st) (totalErrors st) (maxMsgTimeStampMs st)
    (history ++ [msg]) (currentDrivingMode st).

(** What the handler does with a message. *)
Inductive Outcome : Type :=
| Skipped                                (* failed the validity check *)
| Stored                                 (* saved, manual mode: no move *)
| PassedToNavigation (data : SensorMessage). (* [navigation.nextMove(data)] *)

Definition Mode_eqb (a b : Mode) : bool :=
  match a, b with
  | MANUAL_MODE, MANUAL_MODE
  | AUTOMATIC_MODE, AUTOMATIC_MODE
  | DEBUG_MODE, DEBUG_MODE => true
  | _, _ => false
  end.

(** [inboudMessageHandler(message)] up to the call of
    [navigation.nextMove], with [data] the parsed payload; what the handler
    does with the answer of [nextMove] is in [handleMessage] below. *)
Definition inboudMessageHandler (now : number) (data : SensorMessage)
  (st : State) : Outcome * State :=
  let st :=
    mkState (S (totalMessagesReceived st)) (rejectedOutOfOrderMessages st)
      (rejectedFormatMessages st) (totalErrors st) (maxMsgTimeStampMs st)
      (inboundMsgHistory st) (currentDrivingMode st) in
  let (valid, st) := isMessageValid now data st in
  if negb valid then
    (Skipped,
     mkState (totalMessagesReceived st) (rejectedOutOfOrderMessages st)
       (rejectedFormatMessages st) (S (totalErrors st))
       (maxMsgTimeStampMs st) (inboundMsgHistory st)
       (currentDrivingMode st))
  else
    let st := saveInboundMessage data st in
    if Mode_eqb (currentDrivingMode st) MANUAL_MODE then (Stored, st)
    else (PassedToNavigation data, st).

End Controller.

(** ** Reference definitions and sample data *)

(** The consecutive count of the specification: the number of commands
    with goal [g] at the head of the history read newest first. *)
Fixpoint countConsecutive (g : Goal) (newestFirst : list DriveMessage) : nat :=
  match newestFirst with
  | [] => 0
  | command :: older =>
      if hasGoal g command then S (countConsecutive g older) else 0
  end.

(** A detection that passes the false-positive filter and carries the
    wanted label. *)
Definition candidate (settings : Settings) (objectType : string) (obj : BBox)
  : bool :=
  negb (falsePositive settings obj) && labelContains (label obj) objectType.

(** A command with the given mode, goal and actions and nothing else set. *)
Definition plainCommand (m : Mode) (g : Goal) (acts : list Action)
  : DriveMessage :=
  mkDriveMessage (Some m) (Some g) None 0 acts.

(** Illustrative settings for the worked examples; the values of
    [game-settings.js] are not known. *)
Definition sampleSettings : Settings :=
  mkSettings (Fin 100) (Fin 3) "Ball" "Home" (Fin 65) (Fin 200) (Fin 10)
    (mkCamera (Fin 62.2) (Fin 3.04) (Fin 2.76)).

Definition noSimulation : DriveMessageSimulator :=
  mkSimulator false Command.new.

(** A random source that always returns [q]. *)
Definition constantRandom (q : Q) : Random := mkRandom (fun _ => q) 0.

(** A red ball that fills the picture, dead ahead. *)
Definition nearBall : BBox :=
  mkBBox "RedBall" (Fin 0.9) (Fin 0.05) (Fin 0.05) (Fin 0.9) (Fin 0.9).

Definition redCar : SensorMessage :=
  mkSensorMessage (Some (Fin 1519509836918))
    (Some (mkCarState (Fin 0) "red" None)).

(** Two red balls left of the middle, the second one slightly further
    right. *)
Definition leftBall : BBox :=
  mkBBox "RedBall" (Fin 0.9) (Fin 0.4) (Fin 0.5) (Fin 0.1) (Fin 0.1).

Definition leftBallShifted : BBox :=
  mkBBox "RedBall" (Fin 0.9) (Fin 0.405) (Fin 0.5) (Fin 0.1) (Fin 0.1).

(** A history of five turns in search of the home base. *)
Definition fiveHomeTurns : list DriveMessage :=
  repeat (plainCommand AUTOMATIC_MODE SEEK_HOME_TURN
            [SetSpeed (Fin 100); MakeTurn 60%js]) 5.

(** A history of five turns in search of a ball. *)
Definition fiveBallTurns : list DriveMessage :=
  repeat (plainCommand AUTOMATIC_MODE SEEK_BALL_TURN
            [SetSpeed (Fin 10); MakeTurn 67%js]) 5.

(** Some action of the command sets a speed below the maximum. *)
Definition setsReducedSpeed (settings : Settings) (command : DriveMessage)
  : Prop :=
  exists v : number,
    In (SetSpeed v) (actions command)
    /\ Num.ltb v (MAX_SPEED settings) = true.

(** [obj], at position [i] of [boxes], is a candidate of positive size
    that no candidate exceeds and no later candidate equals. *)
Definition selects (settings : Settings) (objectType : string)
  (boxes : list BBox) (i : nat) (obj : BBox) : Prop :=
  nth_error boxes i = Some obj
  /\ candidate settings objectType obj = true
  /\ Num.ltb (Fin 0) (thisSize obj) = true
  /\ (forall (j : nat) (o : BBox),
        nth_error boxes j = Some o ->
        candidate settings objectType o = true ->
        Num.ltb (thisSize obj) (thisSize o) = false)
  /\ (forall (j : nat) (o : BBox),
        (i < j)%nat ->
        nth_error boxes j = Some o ->
        candidate settings objectType o = true ->
        Num.leb (thisSize obj) (thisSize o) = false).

(** What the loop of [findNearestObject] holds in [(foundSize,
    nearestObject)] after the boxes [boxes], scanned from the last to the
    first. *)
Definition scanned (settings : Settings) (objectType : string)
  (boxes : list BBox) (st : number * option BBox) : Prop :=
  match snd st with
  | Some obj =>
      fst st = thisSize obj
      /\ exists i, selects settings objectType boxes i obj
  | None =>
      fst st = Fin 0
      /\ forall o, In o boxes -> candidate settings objectType o = true ->
                   Num.ltb (Fin 0) (thisSize o) = false
  end.

(** Two red balls of the same size and score, side by side. *)
Definition tieFirst : BBox :=
  mkBBox "RedBall" (Fin 0.9) (Fin 0.1) (Fin 0.5) (Fin 0.2) (Fin 0.2).

Definition tieSecond : BBox :=
  mkBBox "RedBall" (Fin 0.9) (Fin 0.6) (Fin 0.5) (Fin 0.2) (Fin 0.2).

(** A red ball with score 0. *)
Definition unsureBall : BBox :=
  mkBBox "RedBall" (Fin 0) (Fin 0.4) (Fin 0.5) (Fin 0.2) (Fin 0.2).

(** A detection whose label contains the wanted label without being it. *)
Definition darkRedBall : BBox :=
  mkBBox "dark_red_ball" (Fin 0.9) (Fin 0.4) (Fin 0.5) (Fin 0.2) (Fin 0.2).

(** The controller in automatic mode after a message with the timestamp of
    [redCar]. *)
Definition drivingState : Controller.State :=
  Controller.mkState 7 0 0 0 (Fin 1519509836918) [] AUTOMATIC_MODE.

(** Red balls at a middle and at a far distance. *)
Definition midBall : BBox :=
  mkBBox "RedBall" (Fin 0.9) (Fin 0.35) (Fin 0.5) (Fin 0.3) (Fin 0.3).

Definition farBall : BBox :=
  mkBBox "RedBall" (Fin 0.9) (Fin 0.45) (Fin 0.5) (Fin 0.1) (Fin 0.1).

(** ** The history of sent commands (the controller's application file)

    [outboundMsgHistory] holds an array, and [new Navigation(outboundMsgHistory)]
    hands the navigation a reference to that same array.  Arrays are therefore
    kept in a store, [arrays], and a variable holds the position of its array
    in the store.  The callback of [command_topic.publish] is taken to run at
    once; [err] tells whether publishing failed. *)

Module App.

Definition MAX_OUTBOUND_HISTORY : nat := 60 * 60.

Record State : Type := mkState {
  controller : Controller.State;
  totalMessagesSent : nat;
  nextDrivingCommand : option DriveMessage;
  arrays : list (list DriveMessage);
  outboundMsgHistory : nat;
  commandHistory : nat (* [navigation.commandHistory] *)
}.

(** The state after the module is loaded: one empty array, shared. *)
Definition initial : State :=
  mkState (Controller.mkState 0 0 0 0 0%js [] MANUAL_MODE) 0 None [[]] 0 0.

Definition readArray (ref : nat) (store : list (list DriveMessage))
  : list DriveMessage :=
  nth ref store [].

Fixpoint writeArray (ref : nat) (content : list DriveMessage)
  (store : list (list DriveMessage)) : list (list DriveMessage) :=
  match store, ref with
  | [], _ => []
  | _ :: rest, O => content :: rest
  | a :: rest, S ref' => a :: writeArray ref' content rest
  end.

(** The commands the variable [outboundMsgHistory] shows. *)
Definition outboundView (st : State) : list DriveMessage :=
  readArray (outboundMsgHistory st) (arrays st).

(** The commands [navigation.commandHistory] shows. *)
Definition navigationView (st : State) : list DriveMessage :=
  readArray (commandHistory st) (arrays st).

(** [saveOutboundMessage]: [splice] and [push] change the array in place. *)
Definition saveOutboundMessage (message : DriveMessage) (st : State) : State :=
  let history := outboundView st in
  let history :=
    if (MAX_OUTBOUND_HISTORY <=? List.length history)%nat
    then skipn (List.length history / 10) history
    else history in
  mkState (controller st) (totalMessagesSent st) (nextDrivingCommand st)
    (writeArray (outboundMsgHistory st) (history ++ [message]) (arrays st))
    (outboundMsgHistory st) (commandHistory st).

Definition countError (st : State) : State :=
  let c := controller st in
  mkState
    (Controller.mkState (Controller.totalMessagesReceived c)
       (Controller.rejectedOutOfOrderMessages c)
       (Controller.rejectedFormatMessages c)
       (S (Controller.totalErrors c)) (Controller.maxMsgTimeStampMs c)
       (Controller.inboundMsgHistory c) (Controller.currentDrivingMode c))
    (totalMessagesSent st) (nextDrivingCommand st) (arrays st)
    (outboundMsgHistory st) (commandHistory st).

Definition countSent (st : State) : State :=
  mkState (controller st) (S (totalMessagesSent st)) (nextDrivingCommand st)
    (arrays st) (outboundMsgHistory st) (commandHistory st).

(** [publishCommand(command)]; [None] is an undefined command.  The text
    of a command object is never empty. *)
Definition publishCommand (command : option DriveMessage) (err : bool)
  (st : State) : State :=
  match command with
  | None => st
  | Some message =>
      if err then countError st
      else saveOutboundMessage message (countSent st)
  end.

(** [reset()]; [now] is [new Date().getTime()].  The two histories are
    bound to new empty arrays. *)
Definition reset (now : number) (st : State) : State :=
  mkState
    (Controller.mkState 0 0 0 0 now []
       (Controller.currentDrivingMode (controller st)))
    0 None (arrays st ++ [[]]) (List.length (arrays st)) (commandHistory st).

(** Both variables refer to arrays of the store. *)
Definition wellFormed (st : State) : Prop :=
  (outboundMsgHistory st < List.length (arrays st))%nat
  /\ (commandHistory st < List.length (arrays st))%nat.

(** What happens to the application from outside: a command is published,
    or the statistics are reset. *)
Inductive Event : Type :=
| Publish (command : option DriveMessage) (err : bool)
| Reset (now : number).

Definition apply (st : State) (e : Event) : State :=
  match e with
  | Publish command err => publishCommand command err st
  | Reset now => reset now st
  end.

Definition isPublish (e : Event) : bool :=
  match e with
  | Publish _ _ => true
  | Reset _ => false
  end.

End App.

(** The messages of a run, each with the clock at its arrival, handled one
    after the other. *)
Definition handleAll (msgs : list (number * SensorMessage))
  (st : Controller.State) : Controller.State :=
  fold_left
    (fun st m => snd (Controller.inboudMessageHandler (fst m) (snd m) st))
    msgs st.

(** One sensor message with what the outside answers while it is handled:
    the clock at its arrival, the detections in its picture, and whether
    publishing the command fails. *)
Record Arrival : Type := mkArrival {
  clock : number;
  payload : SensorMessage;
  detections : VisionResponse;
  publishFails : bool
}.

Definition withController (c : Controller.State) (st : App.State)
  : App.State :=
  App.mkState c (App.totalMessagesSent st) (App.nextDrivingCommand st)
    (App.arrays st) (App.outboundMsgHistory st) (App.commandHistory st).

Definition withNextDrivingCommand (command : option DriveMessage)
  (st : App.State) : App.State :=
  App.mkState (App.controller st) (App.totalMessagesSent st) command
    (App.arrays st) (App.outboundMsgHistory st) (App.commandHistory st).

(** [inboudMessageHandler(message)] to its end: the intake, then
    [navigation.nextMove(data)] on the history the navigation reads, then
    [publishCommand(response)], or [nextDrivingCommand = response] in debug
    mode.  A message is handled to its end before the next one arrives.  When
    [nextMove] throws, its promise is rejected and nothing more happens; no
    random number has been drawn by then. *)
Definition handleMessage (settings : Settings)
  (driveSimulation : DriveMessageSimulator) (a : Arrival)
  (s : App.State * Random) : App.State * Random :=
  let (st, rnd) := s in
  let (outcome, c) :=
    Controller.inboudMessageHandler (clock a) (payload a) (App.controller st) in
  let st := withController c st in
  match outcome with
  | Controller.PassedToNavigation data =>
      match nextMove settings driveSimulation (App.navigationView st) data
              (detections a) rnd with
      | Ok (response, rnd') =>
          if Controller.Mode_eqb (Controller.currentDrivingMode c) DEBUG_MODE
          then (withNextDrivingCommand (Some response) st, rnd')
          else (App.publishCommand (Some response) (publishFails a) st, rnd')
      | TypeError => (st, rnd)
      end
  | _ => (st, rnd)
  end.

Definition handleRun (settings : Settings)
  (driveSimulation : DriveMessageSimulator) (arrivals : list Arrival)
  (s : App.State * Random) : App.State * Random :=
  fold_left (fun s a => handleMessage settings driveSimulation a s) arrivals s.

(** A number that is not NaN. *)
Definition isNumber (a : number) : Prop := Num.leb a a = true.

(** The two tests of the ball capture of [calculateBallDirections]. *)
Definition captureCondition (settings : Settings) (bBox : BBox) : bool :=
  ((Num.abs (findAngle settings bBox) <=? 10)
   && (findDistanceMM settings bBox (BALL_SIZE_MM settings) <=? 70))%js.

(** The home base is in the picture, closer than the release distance. *)
Definition homeReached (settings : Settings) (cs : CarState)
  (response : VisionResponse) : bool :=
  match findNearestObject settings
          (color cs ++ HOME_LABEL_SUFFIX settings)%string response with
  | Some bBox => (findDistanceMM settings bBox (HOME_SIZE_MM settings) <? 850)%js
  | None => false
  end.

(** * Properties *)

(** ** Order on JavaScript numbers *)

Module NumFacts.

Lemma Qltb_lt (a b : Q) : Num.Qltb a b = true <-> a < b.
Proof.
  unfold Num.Qltb. rewrite Qlt_alt.
  destruct (a ?= b); split; congruence.
Qed.

Lemma Qltb_ge (a b : Q) : Num.Qltb a b = false <-> b <= a.
Proof.
  split; intro H.
  - apply Qnot_lt_le. intro L. apply Qltb_lt in L. congruence.
  - destruct (Num.Qltb a b) eqn:E; trivial.
    apply Qltb_lt in E. exfalso. apply (Qlt_not_le _ _ E H).
Qed.

Lemma Qeqb_eq (a b : Q) : Num.Qeqb a b = true <-> a == b.
Proof.
  unfold Num.Qeqb. rewrite Qeq_alt.
  destruct (a ?= b); split; congruence.
Qed.

Lemma Qle_bool_false (a b : Q) : Qle_bool a b = false <-> b < a.
Proof.
  split; intro H.
  - apply Qnot_le_lt. intro L. apply Qle_bool_iff in L. congruence.
  - destruct (Qle_bool a b) eqn:E; trivial.
    apply Qle_bool_iff in E. exfalso. apply (Qlt_not_le _ _ H E).
Qed.

(** Turn the boolean comparisons of rationals in the context and the goal
    into propositions and let [lra] decide. *)
Ltac qbool :=
  repeat match goal with
    | H : Num.Qltb _ _ = true |- _ => apply Qltb_lt in H
    | H : Num.Qltb _ _ = false |- _ => apply Qltb_ge in H
    | H : Qle_bool _ _ = true |- _ => apply Qle_bool_iff in H
    | H : Qle_bool _ _ = false |- _ => apply Qle_bool_false in H
    | H : Num.Qeqb _ _ = true |- _ => apply Qeqb_eq in H
    | |- Num.Qltb _ _ = true => apply Qltb_lt
    | |- Num.Qltb _ _ = false => apply Qltb_ge
    | |- Qle_bool _ _ = true => apply Qle_bool_iff
    | |- Qle_bool _ _ = false => apply Qle_bool_false
    | |- Num.Qeqb _ _ = true => apply Qeqb_eq
    end;
  try lra.

(** Case analysis on the numbers of an order statement. *)
Ltac num_cases :=
  intros;
  repeat match goal with
    | a : number |- _ => destruct a
    end;
  simpl in *; try discriminate; try reflexivity; qbool.

Lemma ltb_irrefl (a : number) : Num.ltb a a = false.
Proof. num_cases. Qed.

Lemma ltb_trans (a b c : number) :
  Num.ltb a b = true -> Num.ltb b c = true -> Num.ltb a c = true.
Proof. num_cases. Qed.

Lemma ltb_leb_trans (a b c : number) :
  Num.ltb a b = true -> Num.leb b c = true -> Num.ltb a c = true.
Proof. num_cases. Qed.

Lemma leb_trans (a b c : number) :
  Num.leb a b = true -> Num.leb b c = true -> Num.leb a c = true.
Proof. num_cases. Qed.

Lemma ltb_leb (a b : number) : Num.ltb a b = true -> Num.leb a b = true.
Proof. num_cases. Qed.

Lemma leb_antiltb (a b : number) : Num.leb a b = true -> Num.ltb b a = false.
Proof. num_cases. Qed.

(** Two numbers that are not NaN are comparable. *)
Lemma leb_false_ltb (a b : number) :
  Num.leb a a = true -> Num.leb b b = true ->
  Num.leb a b = false -> Num.ltb b a = true.
Proof. num_cases. Qed.

Lemma ltb_not_nan_r (a b : number) : Num.ltb a b = true -> Num.leb b b = true.
Proof. num_cases. Qed.

Lemma round_mono (a b : number) :
  Num.leb a b = true -> Num.leb (Num.round a) (Num.round b) = true.
Proof.
  destruct a, b; cbn [Num.leb Num.round Num.int];
    try discriminate; try reflexivity.
  intro H. qbool. rewrite <- Zle_Qle. apply Qfloor_resp_le. lra.
Qed.

Lemma round_int (z : Z) : Num.round (Num.int z) = Num.int z.
Proof.
  unfold Num.round, Num.int. do 2 f_equal.
  assert (L : (z <= Qfloor (inject_Z z + (1 # 2)))%Z).
  { rewrite <- (Qfloor_Z z) at 1. apply Qfloor_resp_le. lra. }
  assert (U : (Qfloor (inject_Z z + (1 # 2)) < z + 1)%Z).
  { rewrite Zlt_Qlt. rewrite inject_Z_plus.
    pose proof (Qfloor_le (inject_Z z + (1 # 2))). change (inject_Z 1) with 1%Q. lra. }
  lia.
Qed.

End NumFacts.

(** ** Substring search *)

Module StrFacts.

Import Str.
Local Open Scope string_scope.

Lemma indexOf_eq (s t : string) :
  indexOf s t =
    if startsWith t s then 0%Z
    else match s with
         | EmptyString => (-1)%Z
         | String _ s' =>
             if (indexOf s' t <? 0)%Z then (-1)%Z else (indexOf s' t + 1)%Z
         end.
Proof. destruct s; reflexivity. Qed.

Lemma startsWith_app (t post : string) : startsWith t (t ++ post) = true.
Proof.
  induction t as [|c t IH]; simpl; trivial.
  now rewrite Ascii.eqb_refl, IH.
Qed.

Lemma startsWith_inv (t s : string) :
  startsWith t s = true -> exists post, s = t ++ post.
Proof.
  revert s. induction t as [|c t IH]; intros s H.
  - now exists s.
  - destruct s as [|d s]; simpl in H; try discriminate.
    apply andb_true_iff in H. destruct H as [E H].
    apply Ascii.eqb_eq in E. subst d.
    destruct (IH _ H) as [post ->]. now exists post.
Qed.

(** [s.indexOf(t) >= 0] exactly when [t] is a substring of [s]. *)
Lemma indexOf_contains (s t : string) :
  (0 <= indexOf s t)%Z <-> contains s t.
Proof.
  split.
  - induction s as [|c s IH]; rewrite indexOf_eq.
    + destruct (startsWith t "") eqn:E; try lia.
      intros _. apply startsWith_inv in E. destruct E as [post E].
      now exists "", post.
    + destruct (startsWith t (String c s)) eqn:E.
      * intros _. apply startsWith_inv in E. destruct E as [post E].
        now exists "", post.
      * destruct (indexOf s t <? 0)%Z eqn:N; try lia.
        intros _. apply Z.ltb_ge in N.
        destruct (IH N) as (pre & post & ->).
        now exists (String c pre), post.
  - intros (pre & post & ->).
    induction pre as [|c pre IH]; rewrite indexOf_eq.
    + simpl. now rewrite startsWith_app.
    + destruct (startsWith t (String c pre ++ t ++ post)); [lia|].
      simpl. destruct (indexOf (pre ++ t ++ post) t <? 0)%Z eqn:N.
      * apply Z.ltb_lt in N. lia.
      * lia.
Qed.

End StrFacts.

(** ** The loops as recursions over the lists *)

Lemma firstn_snoc {A : Type} (l : list A) (i : nat) (a : A) :
  nth_error l i = Some a -> firstn (S i) l = firstn i l ++ [a].
Proof.
  revert i. induction l as [|b l IH]; intros [|i] H; simpl in *;
    try discriminate.
  - now injection H as ->.
  - now rewrite <- (IH i H).
Qed.

Lemma nth_error_in_range {A : Type} (l : list A) (i : nat) :
  (i < List.length l)%nat -> exists a, nth_error l i = Some a.
Proof.
  intro H. destruct (nth_error l i) as [a|] eqn:E.
  - now exists a.
  - apply nth_error_None in E. lia.
Qed.

Section Loops.

Variable settings : Settings.

(** [countGoals] is the consecutive count of the specification. *)
Lemma countGoals_loop_firstn (commandHistory : list DriveMessage) (g : Goal)
  (i result : nat) :
  (i <= List.length commandHistory)%nat ->
  countGoals_loop commandHistory g i result =
    (result + countConsecutive g (rev (firstn i commandHistory)))%nat.
Proof.
  revert result. induction i as [|i IH]; intros result Hi.
  - simpl. lia.
  - destruct (nth_error_in_range commandHistory i) as [c Hc]; try lia.
    rewrite (firstn_snoc _ _ _ Hc), rev_app_distr. simpl. rewrite Hc.
    destruct (hasGoal g c).
    + rewrite IH by lia. lia.
    + lia.
Qed.

Lemma countGoals_countConsecutive (commandHistory : list DriveMessage)
  (g : Goal) :
  countGoals commandHistory g = countConsecutive g (rev commandHistory).
Proof.
  unfold countGoals. rewrite countGoals_loop_firstn by lia.
  now rewrite firstn_all.
Qed.

(** The count is positive exactly when the most recent command has the
    goal. *)
Lemma countGoals_positive (older : list DriveMessage) (last : DriveMessage)
  (g : Goal) :
  (0 < countGoals (older ++ [last]) g)%nat <-> hasGoal g last = true.
Proof.
  rewrite countGoals_countConsecutive, rev_app_distr. simpl.
  destruct (hasGoal g last); split; intro H; try lia; trivial.
Qed.

(** The loop of [findNearestObject] folds [consider] from the right. *)
Lemma findNearestObject_loop_firstn (objectType : string)
  (boxes : list BBox) (i : nat) (st : number * option BBox) :
  (i <= List.length boxes)%nat ->
  findNearestObject_loop settings objectType boxes i st =
    fold_right (consider settings objectType) st (firstn i boxes).
Proof.
  revert st. induction i as [|i IH]; intros st Hi.
  - reflexivity.
  - destruct (nth_error_in_range boxes i) as [obj Hobj]; try lia.
    rewrite (firstn_snoc _ _ _ Hobj), fold_right_app. simpl. rewrite Hobj.
    apply IH. lia.
Qed.

Lemma findNearestObject_fold (objectType : string)
  (visionResponse : VisionResponse) :
  findNearestObject settings objectType visionResponse =
    snd (fold_right (consider settings objectType) (Fin 0, None)
           (bBoxes visionResponse)).
Proof.
  unfold findNearestObject.
  rewrite findNearestObject_loop_firstn by lia.
  now rewrite firstn_all.
Qed.

End Loops.

(** ** Objective selection ([nextMove]) *)

Lemma navigate2home_produces (settings : Settings)
  (commandHistory : list DriveMessage) (msg : SensorMessage) (cs : CarState)
  (response : VisionResponse) (rnd : Random) :
  carState msg = Some cs ->
  exists command rnd',
    navigate2home settings commandHistory msg response rnd
    = Ok (command, rnd').
Proof.
  intro Hcs. unfold navigate2home, readCarState. rewrite Hcs. simpl.
  destruct (findNearestObject settings _ response) as [bBox|].
  - destruct (calculateHomeDirections settings commandHistory bBox
                (obstacleSeen cs) response rnd) as [command rnd'].
    now exists (finishCommand msg command), rnd'.
  - destruct (homeSearchStrategy settings commandHistory response rnd)
      as [command rnd'].
    now exists (finishCommand msg command), rnd'.
Qed.

(** ** Geometry ([findAngle], [findDistanceMM]) *)

Lemma sub_mono (a b : number) (c : Q) :
  Num.leb a b = true -> Num.leb (a - Fin c)%js (b - Fin c)%js = true.
Proof.
  destruct a, b; simpl; try discriminate; try reflexivity.
  intro H. NumFacts.qbool.
Qed.

Lemma scale_mono (a b : number) (f : Q) :
  0 < f -> Num.leb a b = true -> Num.leb (a * Fin f)%js (b * Fin f)%js = true.
Proof.
  intros Hf. assert (G : (f ?= 0) = Gt) by (apply Qgt_alt; exact Hf).
  destruct a, b; simpl; unfold Num.signed_inf; rewrite ?G;
    try discriminate; try reflexivity.
  intro H. apply Qle_bool_iff. apply Qle_bool_iff in H.
  apply Qmult_le_compat_r; lra.
Qed.

(** C8, as the code has it.  With a positive field of view, a box whose
    horizontal centre lies further right gets an angle that is at least as
    large: the rounded angle never decreases. *)
Theorem findAngle_monotone (settings : Settings) (b1 b2 : BBox) (fov : Q) :
  H_FIELD_OF_VIEW (camera settings) = Fin fov ->
  0 < fov ->
  Num.ltb (centerX b1) (centerX b2) = true ->
  Num.leb (findAngle settings b1) (findAngle settings b2) = true.
Proof.
  intros Hfov Hpos Hlt. unfold findAngle, ANGLE_CALIBRATION_MULTIPLIER.
  rewrite Hfov. apply NumFacts.round_mono.
  apply scale_mono; [lra|]. apply scale_mono; [exact Hpos|].
  apply sub_mono. now apply NumFacts.ltb_leb.
Qed.

Lemma findAngle_monotone_witness :
  Num.leb (findAngle sampleSettings leftBall)
    (findAngle sampleSettings leftBallShifted) = true.
Proof.
  apply (findAngle_monotone sampleSettings leftBall leftBallShifted 62.2
           eq_refl).
  - reflexivity.
  - reflexivity.
Defined.

(** C8 as stated fails: the centre of [leftBallShifted] is strictly right of
    the centre of [leftBall], and both get the angle -2. *)
Lemma findAngle_not_strictly_monotone :
  Num.ltb (centerX leftBall) (centerX leftBallShifted) = true
  /\ findAngle sampleSettings leftBall = (-2)%js
  /\ findAngle sampleSettings leftBallShifted = (-2)%js
  /\ Num.ltb (findAngle sampleSettings leftBall)
       (findAngle sampleSettings leftBallShifted) = false.
Proof. repeat split. Qed.

(** Whatever the positive field of view, two boxes with different centres
    share an angle. *)
Lemma findAngle_plateau (settings : Settings) (fov : Q) :
  H_FIELD_OF_VIEW (camera settings) = Fin fov ->
  0 < fov ->
  exists b1 b2 : BBox,
    Num.ltb (centerX b1) (centerX b2) = true
    /\ findAngle settings b1 = findAngle settings b2.
Proof.
  intros Hfov Hpos.
  exists (mkBBox "" (Fin 1) (Fin (1 # 2)) (Fin (1 # 2)) (Fin 0) (Fin 0)).
  exists (mkBBox "" (Fin 1) (Fin (1 # 2)) (Fin (1 # 2))
            (Fin ((2 # 3) * / fov)) (Fin 0)).
  assert (Hinv : 0 < / fov) by now apply Qinv_lt_0_compat.
  split.
  - unfold centerX. simpl. apply NumFacts.Qltb_lt. 
    unfold Qdiv. set (i := / fov) in *. clearbody i.
    assert (E : forall q, q * / 2 == q * (1 # 2)) by (intro; field).
    rewrite !E. lra.
  - unfold findAngle, centerX, ANGLE_CALIBRATION_MULTIPLIER. rewrite Hfov.
    unfold Num.div, Num.sub, Num.add, Num.neg, Num.mul, Num.round, Num.int.
    cbn [label score x y w h].
    change (Num.Qeqb 2 0) with false. cbn iota.
    do 2 f_equal.
    transitivity (Qfloor (1 # 2)); [apply Qfloor_comp; field|].
    transitivity (Qfloor (3 # 4)); [reflexivity|].
    symmetry. apply Qfloor_comp. field. lra.
Qed.

(** C5. [findDistanceMM] computes the pinhole value
    [d = focal * size / (max(h, w) * sensorHeight) - minDistance] and returns
    20 when [d < 95], the rounding of [d - 35] when [95 <= d < 325], and the
    rounding of [d] when [325 <= d]. *)
Theorem findDistanceMM_bands (settings : Settings) (bBox : BBox)
  (realObjectVerticalSizeMm : number) :
  let d := (FOCAL_LENGTH_MM (camera settings) * realObjectVerticalSizeMm
            / (Num.max (h bBox) (w bBox)
               * SENSOR_HEIGHT_MM (camera settings))
            - MIN_DISTANCE_TO_CAMERA_MM settings)%js in
  ((d <? 95)%js = true ->
   findDistanceMM settings bBox realObjectVerticalSizeMm = 20%js)
  /\ ((95 <=? d)%js = true -> (d <? 325)%js = true ->
      findDistanceMM settings bBox realObjectVerticalSizeMm
      = Num.round (d - 35)%js)
  /\ ((325 <=? d)%js = true ->
      findDistanceMM settings bBox realObjectVerticalSizeMm = Num.round d).
Proof.
  intro d. unfold findDistanceMM, pinholeDistance. fold d.
  repeat split.
  - intros H. rewrite H. reflexivity.
  - intros H1 H2. rewrite (NumFacts.leb_antiltb _ _ H1), H2. reflexivity.
  - intros H.
    assert (H95 : (95 <=? d)%js = true).
    { apply NumFacts.leb_trans with (b := 325%js); trivial. }
    rewrite (NumFacts.leb_antiltb _ _ H95), (NumFacts.leb_antiltb _ _ H).
    reflexivity.
Qed.

Lemma findDistanceMM_bands_witness :
  findDistanceMM sampleSettings nearBall (BALL_SIZE_MM sampleSettings)
  = 20%js
  /\ findDistanceMM sampleSettings midBall (BALL_SIZE_MM sampleSettings)
     = 194%js
  /\ findDistanceMM sampleSettings farBall (BALL_SIZE_MM sampleSettings)
     = 706%js.
Proof.
  destruct (findDistanceMM_bands sampleSettings nearBall
              (BALL_SIZE_MM sampleSettings)) as (Hnear & _ & _).
  destruct (findDistanceMM_bands sampleSettings midBall
              (BALL_SIZE_MM sampleSettings)) as (_ & Hmid & _).
  destruct (findDistanceMM_bands sampleSettings farBall
              (BALL_SIZE_MM sampleSettings)) as (_ & _ & Hfar).
  rewrite Hnear, Hmid, Hfar by reflexivity.
  repeat split.
Defined.

(** ** Search strategies ([ballSearchStrategy], [homeSearchStrategy]) *)

(** C6, as the code has it.  While the consecutive count of the seek-turn
    goal is below 5, the search strategy returns a turn-only command in
    automatic mode with the seek-turn goal and draws no random number.  For
    a ball the speed is [MAX_SPEED / 10] and the turn is 67 degrees; for the
    home base the speed is the full [MAX_SPEED] and the turn is 60
    degrees. *)
Theorem searchStrategy_turn (settings : Settings)
  (commandHistory : list DriveMessage) (response : VisionResponse)
  (rnd : Random) :
  ((countGoals commandHistory SEEK_BALL_TURN < 5)%nat ->
   ballSearchStrategy settings commandHistory response rnd
   = (plainCommand AUTOMATIC_MODE SEEK_BALL_TURN
        [SetSpeed (MAX_SPEED settings / 10)%js; MakeTurn 67%js], rnd))
  /\ ((countGoals commandHistory SEEK_HOME_TURN < 5)%nat ->
      homeSearchStrategy settings commandHistory response rnd
      = (plainCommand AUTOMATIC_MODE SEEK_HOME_TURN
           [SetSpeed (MAX_SPEED settings); MakeTurn 60%js], rnd)).
Proof.
  split; intro H; apply Nat.ltb_lt in H.
  - unfold ballSearchStrategy. now rewrite H.
  - unfold homeSearchStrategy. now rewrite H.
Qed.

Lemma searchStrategy_turn_witness :
  ballSearchStrategy sampleSettings [] (mkVisionResponse []) (constantRandom 0)
  = (plainCommand AUTOMATIC_MODE SEEK_BALL_TURN
       [SetSpeed (MAX_SPEED sampleSettings / 10)%js; MakeTurn 67%js],
     constantRandom 0)
  /\ homeSearchStrategy sampleSettings [] (mkVisionResponse [])
       (constantRandom 0)
     = (plainCommand AUTOMATIC_MODE SEEK_HOME_TURN
          [SetSpeed (MAX_SPEED sampleSettings); MakeTurn 60%js],
        constantRandom 0).
Proof.
  split;
    apply (searchStrategy_turn sampleSettings [] (mkVisionResponse [])
             (constantRandom 0));
    vm_compute; lia.
Defined.

(** Whatever the settings and the history, [homeSearchStrategy] sets no
    speed below [MAX_SPEED]. *)
Lemma homeSearchStrategy_full_speed (settings : Settings)
  (commandHistory : list DriveMessage) (response : VisionResponse)
  (rnd : Random) :
  ~ setsReducedSpeed settings
      (fst (homeSearchStrategy settings commandHistory response rnd)).
Proof.
  intros (v & Hin & Hlt). unfold homeSearchStrategy in Hin.
  destruct (_ <? 5)%nat; simpl in Hin;
    destruct Hin as [E|[E|[]]]; try discriminate;
    injection E as <-; now rewrite NumFacts.ltb_irrefl in Hlt.
Qed.

(** C6 as stated fails for the home base: on an empty history the command of
    [homeSearchStrategy] is a turn, and the only speed it sets is
    [MAX_SPEED], no reduced one. *)
Lemma homeSearchStrategy_turn_full_speed :
  (countGoals [] SEEK_HOME_TURN < 5)%nat
  /\ actions (fst (homeSearchStrategy sampleSettings []
                     (mkVisionResponse []) (constantRandom 0)))
     = [SetSpeed (MAX_SPEED sampleSettings); MakeTurn 60%js]
  /\ ~ setsReducedSpeed sampleSettings
         (fst (homeSearchStrategy sampleSettings [] (mkVisionResponse [])
                 (constantRandom 0))).
Proof.
  split; [vm_compute; lia|]. split; [reflexivity|].
  apply homeSearchStrategy_full_speed.
Qed.

Lemma floor_of_draw (r : Q) (n : Z) :
  (0 < n)%Z -> 0 <= r -> r < 1 ->
  let k := Qfloor (r * inject_Z n) in
  (0 <= k < n)%Z /\ inject_Z k <= r * inject_Z n
  /\ r * inject_Z n < inject_Z k + 1.
Proof.
  intros Hn H0 H1 k.
  assert (Hn' : 0 < inject_Z n).
  { change 0 with (inject_Z 0). now rewrite <- Zlt_Qlt. }
  pose proof (Qfloor_le (r * inject_Z n)) as Hle. fold k in Hle.
  pose proof (Qlt_floor (r * inject_Z n)) as Hlt. fold k in Hlt.
  rewrite inject_Z_plus in Hlt. change (inject_Z 1) with 1 in Hlt.
  repeat split; trivial.
  - change 0%Z with (Qfloor 0). apply Qfloor_resp_le. nra.
  - rewrite Zlt_Qlt. nra.
Qed.

(** The range of the relocation distance depends on the product only
    through its lying in [0, span). *)
Lemma floor_range (p : Q) (low span : Z) :
  0 <= p -> p < inject_Z span ->
  let distance := (Num.int low + Num.floor (Fin p))%js in
  Num.leb (Num.int low) distance = true
  /\ Num.ltb distance (Num.int (low + span)) = true
  /\ Num.eqb (Num.floor distance) distance = true.
Proof.
  intros H0 H1.
  assert (Hk0 : (0 <= Qfloor p)%Z).
  { change 0%Z with (Qfloor 0). now apply Qfloor_resp_le. }
  assert (Hk1 : (Qfloor p < span)%Z).
  { rewrite Zlt_Qlt. pose proof (Qfloor_le p). lra. }
  cbn [Num.floor Num.add Num.int Num.leb Num.ltb Num.eqb].
  set (k := Qfloor p) in *.
  rewrite <- !inject_Z_plus, Qfloor_Z.
  repeat split.
  - apply Qle_bool_iff. rewrite <- Zle_Qle. lia.
  - apply NumFacts.Qltb_lt. rewrite <- Zlt_Qlt. lia.
  - apply NumFacts.Qeqb_eq. reflexivity.
Qed.

Lemma relocation_range (r : Q) (low span : Z) :
  (0 < span)%Z -> 0 <= r -> r < 1 ->
  let distance := (Num.int low + Num.floor (Fin r * Num.int span))%js in
  Num.leb (Num.int low) distance = true
  /\ Num.ltb distance (Num.int (low + span)) = true
  /\ Num.eqb (Num.floor distance) distance = true.
Proof.
  intros Hspan H0 H1.
  assert (Hs : 0 < inject_Z span).
  { change 0 with (inject_Z 0). now rewrite <- Zlt_Qlt. }
  apply (floor_range (r * inject_Z span) low span); nra.
Qed.

(** C7, as the code has it.  Once the consecutive count of the seek-turn
    goal has reached 5, the search strategy returns a relocation command in
    automatic mode.  With [r1] and [r2] the next two values of the random
    source, each in [0, 1): for a ball the goal is [SEEK_BALL_MOVE], the speed
    is [MAX_SPEED / 10] and the car drives [100 + Math.floor(r1 * 600)] mm, a
    whole number of millimetres from 100 up to, not including, 700, backwards
    exactly when [r2 < 0.25]; for the home base the goal is [GO2BASE], the
    speed is the full [MAX_SPEED] and the car drives
    [200 + Math.floor(r1 * 700)] mm forwards, a whole number of millimetres
    from 200 up to, not including, 900.  Which whole number a draw yields is
    left to the product and to [Math.floor]. *)
Theorem searchStrategy_move (settings : Settings)
  (commandHistory : list DriveMessage) (response : VisionResponse)
  (rnd : Random) :
  unit_interval rnd ->
  let r1 := Fin (draws rnd (drawn rnd)) in
  let r2 := Fin (draws rnd (S (drawn rnd))) in
  let ballDistance := (100 + Num.floor (r1 * 600))%js in
  let homeDistance := (200 + Num.floor (r1 * 700))%js in
  ((5 <= countGoals commandHistory SEEK_BALL_TURN)%nat ->
   ballSearchStrategy settings commandHistory response rnd
   = (plainCommand AUTOMATIC_MODE SEEK_BALL_MOVE
        [SetSpeed (MAX_SPEED settings / 10)%js;
         Drive (if (r2 <? Fin 0.25)%js
                then (- ballDistance)%js
                else ballDistance)],
      mkRandom (draws rnd) (S (S (drawn rnd))))
   /\ (100 <=? ballDistance)%js = true
   /\ (ballDistance <? 700)%js = true
   /\ Num.eqb (Num.floor ballDistance) ballDistance = true)
  /\ ((5 <= countGoals commandHistory SEEK_HOME_TURN)%nat ->
      homeSearchStrategy settings commandHistory response rnd
      = (plainCommand AUTOMATIC_MODE GO2BASE
           [SetSpeed (MAX_SPEED settings); Drive homeDistance],
         mkRandom (draws rnd) (S (drawn rnd)))
      /\ (200 <=? homeDistance)%js = true
      /\ (homeDistance <? 900)%js = true
      /\ Num.eqb (Num.floor homeDistance) homeDistance = true).
Proof.
  intros Hunit r1 r2 ballDistance homeDistance.
  destruct (Hunit (drawn rnd)) as [H0 H1].
  split; intro H; apply Nat.ltb_ge in H.
  - split.
    + unfold ballSearchStrategy. rewrite H. reflexivity.
    + exact (relocation_range (draws rnd (drawn rnd)) 100 600 eq_refl H0 H1).
  - split.
    + unfold homeSearchStrategy. rewrite H. reflexivity.
    + exact (relocation_range (draws rnd (drawn rnd)) 200 700 eq_refl H0 H1).
Qed.

Lemma searchStrategy_move_witness :
  ballSearchStrategy sampleSettings fiveBallTurns (mkVisionResponse [])
    (constantRandom 0.5)
  = (plainCommand AUTOMATIC_MODE SEEK_BALL_MOVE
       [SetSpeed (MAX_SPEED sampleSettings / 10)%js; Drive 400%js],
     mkRandom (fun _ => 0.5) 2)
  /\ homeSearchStrategy sampleSettings fiveHomeTurns (mkVisionResponse [])
       (constantRandom 0.5)
     = (plainCommand AUTOMATIC_MODE GO2BASE
          [SetSpeed (MAX_SPEED sampleSettings); Drive 550%js],
        mkRandom (fun _ => 0.5) 1).
Proof.
  assert (U : unit_interval (constantRandom 0.5)).
  { intro n. split; reflexivity || discriminate. }
  destruct (searchStrategy_move sampleSettings fiveBallTurns
              (mkVisionResponse []) (constantRandom 0.5) U) as [Hball _].
  destruct (searchStrategy_move sampleSettings fiveHomeTurns
              (mkVisionResponse []) (constantRandom 0.5) U) as [_ Hhome].
  destruct Hball as [-> _]; [vm_compute; lia|].
  destruct Hhome as [-> _]; [vm_compute; lia|].
  split; reflexivity.
Defined.

(** C7 as stated fails for the home base: after five turns in search of the
    home base the relocation command carries the goal [GO2BASE], not a
    seek-move goal, and the only speed it sets is [MAX_SPEED]. *)
Lemma homeSearchStrategy_move_goal_and_speed :
  countGoals fiveHomeTurns SEEK_HOME_TURN = 5%nat
  /\ goal (fst (homeSearchStrategy sampleSettings fiveHomeTurns
                  (mkVisionResponse []) (constantRandom 0)))
     = Some GO2BASE
  /\ goal (fst (homeSearchStrategy sampleSettings fiveHomeTurns
                  (mkVisionResponse []) (constantRandom 0)))
     <> Some SEEK_BALL_MOVE
  /\ ~ setsReducedSpeed sampleSettings
         (fst (homeSearchStrategy sampleSettings fiveHomeTurns
                 (mkVisionResponse []) (constantRandom 0))).
Proof.
  split; [reflexivity|]. split; [reflexivity|]. split; [discriminate|].
  apply homeSearchStrategy_full_speed.
Qed.

(** ** Capturing a ball ([calculateBallDirections]) *)

Lemma lastGoalIs_snoc (older : list DriveMessage) (last : DriveMessage)
  (g : Goal) :
  lastGoalIs (older ++ [last]) g = Ok (hasGoal g last).
Proof.
  unfold lastGoalIs. rewrite length_app. simpl. rewrite Nat.add_1_r.
  rewrite nth_error_app2 by lia. now rewrite Nat.sub_diag.
Qed.

Lemma lastGoalIs_nonempty (commandHistory : list DriveMessage) (g : Goal) :
  commandHistory <> [] -> exists b, lastGoalIs commandHistory g = Ok b.
Proof.
  intro H. destruct (exists_last H) as (older & last & ->).
  exists (hasGoal g last). apply lastGoalIs_snoc.
Qed.

(** With a command in the history, a ball within the capture angle and the
    capture distance yields the two commands of the grip check. *)
Lemma calculateBallDirections_capture (settings : Settings)
  (older : list DriveMessage) (last : DriveMessage) (bBox : BBox)
  (obstacle_found : bool) (response : VisionResponse) (rnd : Random) :
  (Num.abs (findAngle settings bBox) <=? 10)%js = true ->
  (findDistanceMM settings bBox (BALL_SIZE_MM settings) <=? 70)%js = true ->
  calculateBallDirections settings (older ++ [last]) bBox obstacle_found
    response rnd
  = if hasGoal CHECK_GRIP last
    then Ok (plainCommand AUTOMATIC_MODE GO2BASE [], rnd)
    else Ok (plainCommand AUTOMATIC_MODE CHECK_GRIP
               [GripperClose; SetSpeed (MAX_SPEED settings / 2)%js;
                Drive (- 250)%js], rnd).
Proof.
  intros Ha Hd. unfold calculateBallDirections.
  rewrite Ha, Hd, lastGoalIs_snoc. simpl.
  now destruct (hasGoal CHECK_GRIP last).
Qed.

Lemma calculateBallDirections_capture_nil (settings : Settings)
  (bBox : BBox) (obstacle_found : bool) (response : VisionResponse)
  (rnd : Random) :
  (Num.abs (findAngle settings bBox) <=? 10)%js = true ->
  (findDistanceMM settings bBox (BALL_SIZE_MM settings) <=? 70)%js = true ->
  calculateBallDirections settings [] bBox obstacle_found response rnd
  = TypeError.
Proof.
  intros Ha Hd. unfold calculateBallDirections. now rewrite Ha, Hd.
Qed.

(** C2, where the code departs from it.  For a ball within the capture
    angle and the capture distance: on an empty command history
    [calculateBallDirections] throws, because it reads the goal of the last
    command of the history and there is none; on a history that ends with
    the command [last], it returns the command with goal [GO2BASE] and no
    action when the goal of [last] is [CHECK_GRIP], and otherwise the
    command with goal [CHECK_GRIP] that closes the gripper, sets the speed to
    [MAX_SPEED / 2] and drives 250 mm backwards. *)
Theorem calculateBallDirections_capture_cases (settings : Settings)
  (bBox : BBox) (obstacle_found : bool) (response : VisionResponse)
  (rnd : Random) :
  (Num.abs (findAngle settings bBox) <=? 10)%js = true ->
  (findDistanceMM settings bBox (BALL_SIZE_MM settings) <=? 70)%js = true ->
  calculateBallDirections settings [] bBox obstacle_found response rnd
  = TypeError
  /\ forall (older : list DriveMessage) (last : DriveMessage),
      (hasGoal CHECK_GRIP last = true ->
       calculateBallDirections settings (older ++ [last]) bBox obstacle_found
         response rnd
       = Ok (plainCommand AUTOMATIC_MODE GO2BASE [], rnd))
      /\ (hasGoal CHECK_GRIP last = false ->
          calculateBallDirections settings (older ++ [last]) bBox
            obstacle_found response rnd
          = Ok (plainCommand AUTOMATIC_MODE CHECK_GRIP
                  [GripperClose; SetSpeed (MAX_SPEED settings / 2)%js;
                   Drive (- 250)%js], rnd)).
Proof.
  intros Ha Hd. split.
  - now apply calculateBallDirections_capture_nil.
  - intros older last.
    rewrite (calculateBallDirections_capture settings older last bBox
               obstacle_found response rnd Ha Hd).
    split; intros ->; reflexivity.
Qed.

Lemma calculateBallDirections_capture_cases_witness :
  calculateBallDirections sampleSettings [] nearBall false
    (mkVisionResponse [nearBall]) (constantRandom 0)
  = TypeError.
Proof.
  apply (calculateBallDirections_capture_cases sampleSettings nearBall false
           (mkVisionResponse [nearBall]) (constantRandom 0));
    reflexivity.
Defined.

(** ** Totality of [nextMove] *)

Lemma calculateBallDirections_produces (settings : Settings)
  (commandHistory : list DriveMessage) (bBox : BBox) (obstacle_found : bool)
  (response : VisionResponse) (rnd : Random) :
  commandHistory <> [] ->
  exists command rnd',
    calculateBallDirections settings commandHistory bBox obstacle_found
      response rnd
    = Ok (command, rnd').
Proof.
  intro H. unfold calculateBallDirections.
  destruct (_ && _).
  - destruct (lastGoalIs_nonempty commandHistory CHECK_GRIP H) as [b ->].
    simpl. destruct b; eauto.
  - destruct (_ <? _)%js; eauto.
    destruct obstacle_found; eauto.
    destruct (ballSearchStrategy settings commandHistory response rnd); eauto.
Qed.

(** With a command in the history, [nextMove] produces a command for every
    sensor message that carries its car state. *)
Lemma nextMove_produces (settings : Settings)
  (driveSimulation : DriveMessageSimulator)
  (commandHistory : list DriveMessage) (msg : SensorMessage) (cs : CarState)
  (response : VisionResponse) (rnd : Random) :
  carState msg = Some cs ->
  commandHistory <> [] ->
  exists command rnd',
    nextMove settings driveSimulation commandHistory msg response rnd
    = Ok (command, rnd').
Proof.
  intros Hcs Hne.
  pose proof (navigate2home_produces settings commandHistory msg cs response
                rnd Hcs) as Hhome.
  unfold nextMove, readCarState. rewrite Hcs. simpl.
  destruct (_ || _); [exact Hhome|].
  destruct (_ <? _)%js; [|eauto].
  unfold navigate2ball, readCarState. rewrite Hcs.
  destruct (simulate driveSimulation); [eauto|]. simpl.
  destruct (findNearestObject settings _ response) as [bBox|].
  - destruct (calculateBallDirections_produces settings commandHistory bBox
                (obstacleSeen cs) response rnd Hne) as (c & r & ->).
    simpl. eauto.
  - destruct (ballSearchStrategy settings commandHistory response rnd).
    simpl. eauto.
Qed.

Lemma calculateBallDirections_uncaptured (settings : Settings)
  (commandHistory : list DriveMessage) (bBox : BBox) (obstacle_found : bool)
  (response : VisionResponse) (rnd : Random) :
  captureCondition settings bBox = false ->
  exists command rnd',
    calculateBallDirections settings commandHistory bBox obstacle_found
      response rnd
    = Ok (command, rnd').
Proof.
  intro H. unfold calculateBallDirections.
  unfold captureCondition in H. rewrite H.
  destruct (_ <? _)%js; eauto.
  destruct obstacle_found; eauto.
  destruct (ballSearchStrategy settings commandHistory response rnd); eauto.
Qed.

Lemma navigate2ball_produces (settings : Settings)
  (driveSimulation : DriveMessageSimulator)
  (commandHistory : list DriveMessage) (msg : SensorMessage) (cs : CarState)
  (response : VisionResponse) (rnd : Random) :
  carState msg = Some cs ->
  commandHistory <> []
  \/ simulate driveSimulation = true
  \/ (forall bBox,
        findNearestObject settings
          (color cs ++ BALL_LABEL_SUFFIX settings)%string response
        = Some bBox ->
        captureCondition settings bBox = false) ->
  exists command rnd',
    navigate2ball settings driveSimulation commandHistory msg response rnd
    = Ok (command, rnd').
Proof.
  intros Hcs Hcase. unfold navigate2ball, readCarState. rewrite Hcs.
  destruct (simulate driveSimulation) eqn:Hsim; [eauto|]. simpl.
  destruct (findNearestObject settings _ response) as [bBox|] eqn:Hbox.
  - assert (P : exists command rnd',
               calculateBallDirections settings commandHistory bBox
                 (obstacleSeen cs) response rnd = Ok (command, rnd')).
    { destruct Hcase as [Hne|[Hs|Hun]].
      - now apply calculateBallDirections_produces.
      - discriminate.
      - apply calculateBallDirections_uncaptured. now apply Hun. }
    destruct P as (c & r & ->). simpl. eauto.
  - destruct (ballSearchStrategy settings commandHistory response rnd).
    simpl. eauto.
Qed.

Lemma navigate2ball_throws (settings : Settings)
  (driveSimulation : DriveMessageSimulator) (msg : SensorMessage)
  (cs : CarState) (response : VisionResponse) (rnd : Random) (bBox : BBox) :
  carState msg = Some cs ->
  simulate driveSimulation = false ->
  findNearestObject settings (color cs ++ BALL_LABEL_SUFFIX settings)%string
    response = Some bBox ->
  captureCondition settings bBox = true ->
  navigate2ball settings driveSimulation [] msg response rnd = TypeError.
Proof.
  intros Hcs Hsim Hbox Hcap.
  unfold captureCondition in Hcap. apply andb_true_iff in Hcap.
  destruct Hcap as [Ha Hd].
  unfold navigate2ball, readCarState. rewrite Hsim, Hcs. simpl.
  rewrite Hbox.
  now rewrite (calculateBallDirections_capture_nil settings bBox
                 (obstacleSeen cs) response rnd Ha Hd).
Qed.

(** C1, where the code departs from it.  On a sensor message that carries
    its car state, [nextMove] picks the objective in this order.  When the
    consecutive count of [GO2BASE] or of [SEEK_HOME_TURN] at the recent end
    of the history is positive, the move is the one of [navigate2home], and
    that is a command.  Otherwise, when the car carries fewer balls than
    [BALLS_NEEDED], the move is the one of [navigate2ball]: a command as soon
    as the history is not empty, or the simulation is on, or no ball within
    the capture angle and distance is found; but on the empty history, with
    the simulation off and such a ball found, [nextMove] throws instead of
    returning a command.  Otherwise the move is the command of [gameOver],
    whose goal is [GAME_END]. *)
Theorem nextMove_objective (settings : Settings)
  (driveSimulation : DriveMessageSimulator)
  (commandHistory : list DriveMessage) (msg : SensorMessage) (cs : CarState)
  (response : VisionResponse) (rnd : Random) :
  carState msg = Some cs ->
  ((0 < countGoals commandHistory GO2BASE
    \/ 0 < countGoals commandHistory SEEK_HOME_TURN)%nat ->
   nextMove settings driveSimulation commandHistory msg response rnd
   = navigate2home settings commandHistory msg response rnd
   /\ exists command rnd',
       nextMove settings driveSimulation commandHistory msg response rnd
       = Ok (command, rnd'))
  /\ (countGoals commandHistory GO2BASE = 0%nat ->
      countGoals commandHistory SEEK_HOME_TURN = 0%nat ->
      Num.ltb (ballsCollected cs) (BALLS_NEEDED settings) = true ->
      nextMove settings driveSimulation commandHistory msg response rnd
      = navigate2ball settings driveSimulation commandHistory msg response
          rnd
      /\ (commandHistory <> []
          \/ simulate driveSimulation = true
          \/ (forall bBox,
                findNearestObject settings
                  (color cs ++ BALL_LABEL_SUFFIX settings)%string response
                = Some bBox ->
                captureCondition settings bBox = false) ->
          exists command rnd',
            nextMove settings driveSimulation commandHistory msg response rnd
            = Ok (command, rnd'))
      /\ (forall bBox,
            commandHistory = [] ->
            simulate driveSimulation = false ->
            findNearestObject settings
              (color cs ++ BALL_LABEL_SUFFIX settings)%string response
            = Some bBox ->
            captureCondition settings bBox = true ->
            nextMove settings driveSimulation commandHistory msg response rnd
            = TypeError))
  /\ (countGoals commandHistory GO2BASE = 0%nat ->
      countGoals commandHistory SEEK_HOME_TURN = 0%nat ->
      Num.ltb (ballsCollected cs) (BALLS_NEEDED settings) = false ->
      nextMove settings driveSimulation commandHistory msg response rnd
      = Ok (gameOver msg, rnd)
      /\ goal (gameOver msg) = Some GAME_END).
Proof.
  intro Hcs. unfold nextMove, readCarState. rewrite Hcs. simpl.
  split; [|split].
  - intro H.
    assert (E : ((0 <? countGoals commandHistory GO2BASE)%nat
                 || (0 <? countGoals commandHistory SEEK_HOME_TURN)%nat)
                = true).
    { destruct H as [H|H]; apply Nat.ltb_lt in H; rewrite H; trivial.
      now rewrite orb_true_r. }
    rewrite E. split; trivial.
    apply navigate2home_produces with (cs := cs). exact Hcs.
  - intros H1 H2 H3. rewrite H1, H2, H3. simpl.
    split; [reflexivity|]. split.
    + now apply navigate2ball_produces with (cs := cs).
    + intros bBox -> Hsim Hbox Hcap.
      now apply navigate2ball_throws with (cs := cs) (bBox := bBox).
  - intros H1 H2 H3. now rewrite H1, H2, H3.
Qed.

Lemma nextMove_objective_witness :
  nextMove sampleSettings noSimulation
    [plainCommand AUTOMATIC_MODE GO2BASE []] redCar (mkVisionResponse [])
    (constantRandom 0)
  = navigate2home sampleSettings [plainCommand AUTOMATIC_MODE GO2BASE []]
      redCar (mkVisionResponse []) (constantRandom 0)
  /\ nextMove sampleSettings noSimulation [] redCar
       (mkVisionResponse [nearBall]) (constantRandom 0)
     = TypeError.
Proof.
  split.
  - apply (nextMove_objective sampleSettings noSimulation
             [plainCommand AUTOMATIC_MODE GO2BASE []] redCar
             (mkCarState (Fin 0) "red" None)
             (mkVisionResponse []) (constantRandom 0) eq_refl).
    left. vm_compute. lia.
  - apply (nextMove_objective sampleSettings noSimulation [] redCar
             (mkCarState (Fin 0) "red" None)
             (mkVisionResponse [nearBall]) (constantRandom 0) eq_refl)
      with (bBox := nearBall);
      reflexivity.
Defined.

(** A message without car state makes [nextMove] throw. *)
Lemma nextMove_incomplete (settings : Settings)
  (driveSimulation : DriveMessageSimulator)
  (commandHistory : list DriveMessage) (msg : SensorMessage)
  (response : VisionResponse) (rnd : Random) :
  carState msg = None ->
  nextMove settings driveSimulation commandHistory msg response rnd
  = TypeError.
Proof. intro H. unfold nextMove, readCarState. now rewrite H. Qed.

(** C3, where the code departs from it.  On an empty command history, a
    sensor message that carries its car state makes [nextMove] throw as soon
    as the car still needs balls, the simulation is off and the ball found in
    the picture is within the capture angle and the capture distance. *)
Theorem nextMove_empty_history_throws (settings : Settings)
  (driveSimulation : DriveMessageSimulator) (msg : SensorMessage)
  (cs : CarState) (response : VisionResponse) (rnd : Random) (bBox : BBox) :
  carState msg = Some cs ->
  simulate driveSimulation = false ->
  (ballsCollected cs <? BALLS_NEEDED settings)%js = true ->
  findNearestObject settings (color cs ++ BALL_LABEL_SUFFIX settings)%string
    response = Some bBox ->
  (Num.abs (findAngle settings bBox) <=? 10)%js = true ->
  (findDistanceMM settings bBox (BALL_SIZE_MM settings) <=? 70)%js = true ->
  nextMove settings driveSimulation [] msg response rnd = TypeError.
Proof.
  intros Hcs Hsim Hballs Hbox Ha Hd.
  unfold nextMove, readCarState. rewrite Hcs. simpl. rewrite Hballs.
  unfold navigate2ball, readCarState. rewrite Hsim, Hcs. simpl.
  rewrite Hbox.
  now rewrite (calculateBallDirections_capture_nil settings bBox
                 (obstacleSeen cs) response rnd Ha Hd).
Qed.

Lemma nextMove_empty_history_throws_witness :
  nextMove sampleSettings noSimulation [] redCar (mkVisionResponse [nearBall])
    (constantRandom 0)
  = TypeError.
Proof.
  apply (nextMove_empty_history_throws sampleSettings noSimulation redCar
           (mkCarState (Fin 0) "red" None) (mkVisionResponse [nearBall])
           (constantRandom 0) nearBall);
    reflexivity.
Defined.

(** ** Choice of the detection ([findNearestObject]) *)

Section Selection.

Variable settings : Settings.
Variable objectType : string.

Lemma consider_cases (obj : BBox) (st : number * option BBox) :
  consider settings objectType obj st
  = if candidate settings objectType obj
       && Num.ltb (fst st) (thisSize obj)
    then (thisSize obj, Some obj)
    else st.
Proof.
  unfold consider, candidate.
  destruct (falsePositive settings obj); simpl; trivial.
  destruct (labelContains (label obj) objectType); simpl; trivial.
Qed.

Lemma not_above_not_equal (a b c : number) :
  Num.ltb a b = true -> Num.ltb a c = false -> Num.leb b c = false.
Proof.
  intros Hab Hac. destruct (Num.leb b c) eqn:E; trivial.
  rewrite (NumFacts.ltb_leb_trans _ _ _ Hab E) in Hac. discriminate.
Qed.

Lemma selects_later (boxes : list BBox) (a obj : BBox) (i : nat) :
  selects settings objectType boxes i obj ->
  (candidate settings objectType a = true ->
   Num.ltb (thisSize obj) (thisSize a) = false) ->
  selects settings objectType (a :: boxes) (S i) obj.
Proof.
  intros (Hnth & Hc & Hpos & Hmax & Hlast) Ha.
  repeat split; trivial.
  - intros [|j] o Hj Ho; simpl in Hj.
    + injection Hj as <-. now apply Ha.
    + now apply (Hmax j).
  - intros [|j] o Hij Hj Ho; [lia|]. simpl in Hj.
    apply (Hlast j); trivial. lia.
Qed.

Lemma selects_head (boxes : list BBox) (a : BBox) (bound : number) :
  candidate settings objectType a = true ->
  Num.ltb (Fin 0) (thisSize a) = true ->
  Num.ltb bound (thisSize a) = true ->
  (forall o, In o boxes -> candidate settings objectType o = true ->
             Num.ltb bound (thisSize o) = false) ->
  selects settings objectType (a :: boxes) 0 a.
Proof.
  intros Hc Hpos Hb Hrest.
  assert (Hle : forall (j : nat) (o : BBox),
             nth_error boxes j = Some o ->
             candidate settings objectType o = true ->
             Num.leb (thisSize a) (thisSize o) = false).
  { intros j o Hj Ho. apply not_above_not_equal with (a := bound); trivial.
    apply Hrest; trivial. eapply nth_error_In; eauto. }
  repeat split; trivial.
  - intros [|j] o Hj Ho; simpl in Hj.
    + injection Hj as <-. apply NumFacts.ltb_irrefl.
    + destruct (Num.ltb (thisSize a) (thisSize o)) eqn:E; trivial.
      apply NumFacts.ltb_leb in E. now rewrite (Hle j o Hj Ho) in E.
  - intros [|j] o Hij Hj Ho; [lia|]. simpl in Hj. now apply (Hle j).
Qed.

Lemma scanned_fold (boxes : list BBox) :
  scanned settings objectType boxes
    (fold_right (consider settings objectType) (Fin 0, None) boxes).
Proof.
  induction boxes as [|a boxes IH].
  - split; [reflexivity|]. intros o [].
  - simpl. rewrite consider_cases.
    destruct (fold_right _ _ boxes) as [foundSize nearest].
    unfold scanned in *. simpl in *.
    destruct (candidate settings objectType a) eqn:Hc; simpl.
    + destruct (Num.ltb foundSize (thisSize a)) eqn:Hlt; simpl.
      * split; [reflexivity|]. exists 0%nat.
        destruct nearest as [obj|].
        -- destruct IH as (-> & i & Hsel).
           destruct Hsel as (Hnth & Hco & Hpos & Hmax & Hlast).
           apply selects_head with (bound := thisSize obj); trivial.
           ++ eapply NumFacts.ltb_trans; eauto.
           ++ intros o Ho Hcand.
              destruct (In_nth_error _ _ Ho) as [j Hj]. eauto.
        -- destruct IH as (-> & Hnone).
           apply selects_head with (bound := Fin 0); trivial.
      * destruct nearest as [obj|].
        -- destruct IH as (-> & i & Hsel). split; [reflexivity|].
           exists (S i). apply selects_later; trivial.
        -- destruct IH as (-> & Hnone). split; [reflexivity|].
           intros o [<-|Ho] Hcand; eauto.
    + destruct nearest as [obj|].
      * destruct IH as (-> & i & Hsel). split; [reflexivity|].
        exists (S i). apply selects_later; trivial. congruence.
      * destruct IH as (-> & Hnone). split; [reflexivity|].
        intros o [<-|Ho] Hcand; [congruence|eauto].
Qed.

Lemma selects_unique (boxes : list BBox) (i j : nat) (a b : BBox) :
  selects settings objectType boxes i a ->
  selects settings objectType boxes j b ->
  i = j /\ a = b.
Proof.
  intros (Hi & Hca & Hpa & Hma & Hla) (Hj & Hcb & Hpb & Hmb & Hlb).
  assert (Na : Num.leb (thisSize a) (thisSize a) = true)
    by (eapply NumFacts.ltb_not_nan_r; eauto).
  assert (Nb : Num.leb (thisSize b) (thisSize b) = true)
    by (eapply NumFacts.ltb_not_nan_r; eauto).
  destruct (Nat.lt_trichotomy i j) as [L|[E|L]].
  - pose proof (Hla j b L Hj Hcb) as H1.
    pose proof (Hmb i a Hi Hca) as H2.
    rewrite (NumFacts.leb_false_ltb _ _ Na Nb H1) in H2. discriminate.
  - subst j. split; trivial. congruence.
  - pose proof (Hlb i a L Hi Hca) as H1.
    pose proof (Hma j b Hj Hcb) as H2.
    rewrite (NumFacts.leb_false_ltb _ _ Nb Na H1) in H2. discriminate.
Qed.

End Selection.

(** C4, as the code has it.  [findNearestObject] returns a detection that
    carries the wanted label and passes the false-positive filter, whose
    value [max(w, h) * score] is positive, is exceeded by no such detection
    and is equalled by none that comes later in the list: among the
    detections of greatest value it is the last of the list.  It returns
    nothing exactly when no such detection has a positive value.  And a
    detection with these properties is the one returned. *)
Theorem findNearestObject_selects (settings : Settings) (objectType : string)
  (response : VisionResponse) :
  match findNearestObject settings objectType response with
  | Some obj =>
      exists i, selects settings objectType (bBoxes response) i obj
  | None =>
      forall o, In o (bBoxes response) ->
                candidate settings objectType o = true ->
                Num.ltb (Fin 0) (thisSize o) = false
  end
  /\ forall (i : nat) (obj : BBox),
      selects settings objectType (bBoxes response) i obj ->
      findNearestObject settings objectType response = Some obj.
Proof.
  pose proof (scanned_fold settings objectType (bBoxes response)) as H.
  rewrite findNearestObject_fold. unfold scanned in H.
  destruct (snd (fold_right _ _ (bBoxes response))) as [obj|].
  - destruct H as (_ & i & Hsel). split; [now exists i|].
    intros j obj' Hsel'. f_equal.
    now destruct (selects_unique settings objectType _ i j obj obj' Hsel Hsel').
  - destruct H as (_ & Hnone). split; [exact Hnone|].
    intros i obj (Hnth & Hc & Hpos & _). apply nth_error_In in Hnth.
    rewrite (Hnone obj Hnth Hc) in Hpos. discriminate.
Qed.

Lemma findNearestObject_selects_witness :
  findNearestObject sampleSettings "redBall"
    (mkVisionResponse [leftBall; nearBall])
  = Some nearBall.
Proof.
  apply (findNearestObject_selects sampleSettings "redBall"
           (mkVisionResponse [leftBall; nearBall])) with (i := 1%nat).
  repeat split.
  - intros [|[|[|j]]] o Hj Ho; simpl in Hj; try discriminate;
      injection Hj as <-; reflexivity.
  - intros [|[|[|j]]] o Hij Hj Ho; simpl in Hj; try discriminate; lia.
Defined.

(** C4 as stated fails on a tie: [tieFirst] and [tieSecond] both carry the
    label and pass the filter with the same value, and the one returned is
    [tieSecond], the later of the list. *)
Lemma findNearestObject_tie_keeps_last :
  candidate sampleSettings "redBall" tieFirst = true
  /\ candidate sampleSettings "redBall" tieSecond = true
  /\ Num.eqb (thisSize tieFirst) (thisSize tieSecond) = true
  /\ findNearestObject sampleSettings "redBall"
       (mkVisionResponse [tieFirst; tieSecond])
     = Some tieSecond
  /\ Some tieSecond <> Some tieFirst.
Proof. repeat split. discriminate. Qed.

(** A lone candidate of value 0 is not returned. *)
Lemma findNearestObject_zero_value :
  candidate sampleSettings "redBall" unsureBall = true
  /\ findNearestObject sampleSettings "redBall"
       (mkVisionResponse [unsureBall])
     = None.
Proof. split; reflexivity. Qed.

(** ** Label matching *)

Lemma labelContains_iff (lbl sub : string) :
  labelContains lbl sub = true
  <-> Str.contains (Str.toLowerCase lbl) (Str.toLowerCase sub).
Proof.
  unfold labelContains. rewrite Z.leb_le. apply StrFacts.indexOf_contains.
Qed.

(** C10. A detection carries the wanted label exactly when its lower-cased
    label contains the lower-cased wanted label as a substring; the
    false-positive filter drops a detection exactly when its lower-cased
    label contains the lower-cased ball suffix, its score is below 0.5 and its
    top edge is above 0.2; and a detection whose label contains the wanted
    one, which the filter keeps and which is larger than what was found so
    far, becomes the nearest object of the loop. *)
Theorem label_matching_is_containment (settings : Settings)
  (objectType : string) (obj : BBox) :
  (labelContains (label obj) objectType = true
   <-> Str.contains (Str.toLowerCase (label obj))
         (Str.toLowerCase objectType))
  /\ (falsePositive settings obj = true
      <-> Str.contains (Str.toLowerCase (label obj))
            (Str.toLowerCase (BALL_LABEL_SUFFIX settings))
          /\ (score obj <? Fin 0.5)%js = true
          /\ (y obj <? Fin 0.2)%js = true)
  /\ (forall st : number * option BBox,
        Str.contains (Str.toLowerCase (label obj))
          (Str.toLowerCase objectType) ->
        falsePositive settings obj = false ->
        (fst st <? thisSize obj)%js = true ->
        consider settings objectType obj st = (thisSize obj, Some obj)).
Proof.
  split; [apply labelContains_iff|]. split.
  - unfold falsePositive, HIGH_BALL_SCORE, HIGH_BALL_TOP_BOUND.
    rewrite !andb_true_iff, labelContains_iff. tauto.
  - intros st Hsub Hfp Hlt. unfold consider.
    apply labelContains_iff in Hsub. now rewrite Hfp, Hsub, Hlt.
Qed.

Lemma label_matching_is_containment_witness :
  consider sampleSettings "red_ball" darkRedBall (Fin 0, None)
  = (thisSize darkRedBall, Some darkRedBall).
Proof.
  apply (label_matching_is_containment sampleSettings "red_ball" darkRedBall).
  - exists "dark_"%string, ""%string. reflexivity.
  - reflexivity.
  - reflexivity.
Defined.

(** The wanted label need not be the whole label. *)
Lemma findNearestObject_dark_red_ball :
  label darkRedBall <> "red_ball"%string
  /\ findNearestObject sampleSettings "red_ball"
       (mkVisionResponse [darkRedBall])
     = Some darkRedBall.
Proof. split; [discriminate|reflexivity]. Qed.

(** ** Intake of sensor messages ([isMessageValid]) *)

Lemma eqb_not_ltb (a b : number) : Num.eqb a b = true -> Num.ltb a b = false.
Proof.
  destruct a, b; simpl; try discriminate; try reflexivity.
  intro H. NumFacts.qbool.
Qed.

(** C9, where the code departs from it.  For a message with the timestamp
    [t]: when [t] is 0 or NaN the validator rejects the message and counts it
    as badly formed; when [t] is strictly below the greatest timestamp seen so
    far, it rejects the message, counts it as out of order and leaves the
    greatest timestamp as it is; the handler skips every message the validator
    rejects; and a message is accepted only when [t] is not below the
    greatest timestamp.  But a message whose timestamp equals the greatest
    timestamp seen so far, not a greater one, and is not older than 60
    seconds is accepted, and outside manual mode the handler passes it to the
    navigation. *)
Theorem isMessageValid_ordering (now : number) (msg : SensorMessage)
  (t : number) (st : Controller.State) :
  timestampMs msg = Some t ->
  (Num.truthy t = false ->
   Controller.isMessageValid now msg st
   = (false, Controller.countFormatReject st))
  /\ (Num.truthy t = true ->
      (t <? Controller.maxMsgTimeStampMs st)%js = true ->
      Controller.isMessageValid now msg st
      = (false, Controller.countOutOfOrderReject st))
  /\ (fst (Controller.isMessageValid now msg st) = false ->
      fst (Controller.inboudMessageHandler now msg st) = Controller.Skipped)
  /\ (fst (Controller.isMessageValid now msg st) = true ->
      (t <? Controller.maxMsgTimeStampMs st)%js = false)
  /\ (Num.truthy t = true ->
      Num.eqb t (Controller.maxMsgTimeStampMs st) = true ->
      (t <? now - 60 * 1000)%js = false ->
      Controller.isMessageValid now msg st
      = (true, Controller.setMaxMsgTimeStampMs t st)
      /\ (Controller.currentDrivingMode st <> MANUAL_MODE ->
          fst (Controller.inboudMessageHandler now msg st)
          = Controller.PassedToNavigation msg)).
Proof.
  intros Ht.
  assert (Hof : Controller.timestampOf msg = t).
  { unfold Controller.timestampOf. now rewrite Ht. }
  assert (Hno : Controller.noTimestamp msg = negb (Num.truthy t)).
  { unfold Controller.noTimestamp. now rewrite Ht. }
  split; [|split; [|split; [|split]]].
  - intro Hf. unfold Controller.isMessageValid. now rewrite Hno, Hf.
  - intros Htr Hlt. unfold Controller.isMessageValid.
    now rewrite Hno, Htr, Hof, Hlt.
  - unfold Controller.inboudMessageHandler, Controller.isMessageValid.
    rewrite Hno, Hof. cbn [Controller.maxMsgTimeStampMs].
    destruct (Num.truthy t); cbn [negb]; [|reflexivity].
    destruct (t <? Controller.maxMsgTimeStampMs st)%js; [reflexivity|].
    destruct (t <? now - _)%js; [reflexivity|discriminate].
  - unfold Controller.isMessageValid. rewrite Hno, Hof.
    destruct (Num.truthy t); cbn [negb]; [|discriminate].
    destruct (t <? Controller.maxMsgTimeStampMs st)%js;
      [discriminate|trivial].
  - intros Htr He Hfresh. pose proof (eqb_not_ltb _ _ He) as Hlt.
    split.
    + unfold Controller.isMessageValid. rewrite Hno, Htr, Hof, Hlt.
      unfold Controller.MAX_MSG_AGE_SEC. now rewrite Hfresh.
    + intro Hmode.
      unfold Controller.inboudMessageHandler, Controller.isMessageValid.
      rewrite Hno, Htr, Hof. cbn [Controller.maxMsgTimeStampMs negb].
      rewrite Hlt. unfold Controller.MAX_MSG_AGE_SEC. rewrite Hfresh.
      cbn [negb]. unfold Controller.saveInboundMessage,
        Controller.setMaxMsgTimeStampMs.
      cbn [Controller.currentDrivingMode].
      destruct (Controller.currentDrivingMode st); trivial.
      now elim Hmode.
Qed.

Lemma isMessageValid_ordering_witness :
  Controller.isMessageValid (Fin 1519509836918 + 82)%js redCar drivingState
  = (true,
     Controller.setMaxMsgTimeStampMs (Fin 1519509836918) drivingState)
  /\ (Controller.currentDrivingMode drivingState <> MANUAL_MODE ->
      fst (Controller.inboudMessageHandler (Fin 1519509836918 + 82)%js
             redCar drivingState)
      = Controller.PassedToNavigation redCar).
Proof.
  apply (isMessageValid_ordering (Fin 1519509836918 + 82)%js redCar
           (Fin 1519509836918) drivingState eq_refl);
    reflexivity.
Defined.

(** The same on the sample data: the message [redCar] carries the greatest
    timestamp seen so far, not a greater one, and 82 ms later the validator
    accepts it and the handler passes it to the navigation. *)
Lemma isMessageValid_admits_equal_timestamp :
  timestampMs redCar = Some (Controller.maxMsgTimeStampMs drivingState)
  /\ (Controller.maxMsgTimeStampMs drivingState
      <? Controller.timestampOf redCar)%js = false
  /\ fst (Controller.isMessageValid (Fin 1519509836918 + 82)%js redCar
            drivingState) = true
  /\ fst (Controller.inboudMessageHandler (Fin 1519509836918 + 82)%js redCar
            drivingState)
     = Controller.PassedToNavigation redCar.
Proof. repeat split. Qed.

(** * Further properties of the code *)

(** ** The count of recent goals ([countGoals]) *)

Lemma Goal_eqb_eq (a b : Goal) : Goal_eqb a b = true <-> a = b.
Proof. destruct a, b; simpl; split; congruence. Qed.

Lemma hasGoal_unique (g1 g2 : Goal) (command : DriveMessage) :
  hasGoal g1 command = true -> hasGoal g2 command = true -> g1 = g2.
Proof.
  unfold hasGoal. destruct (goal command) as [g|]; try discriminate.
  intros H1 H2. apply Goal_eqb_eq in H1, H2. congruence.
Qed.

Lemma hasGoal_goal (g : Goal) (command : DriveMessage) :
  hasGoal g command = true <-> goal command = Some g.
Proof.
  unfold hasGoal. destruct (goal command) as [g'|].
  - rewrite Goal_eqb_eq. split; congruence.
  - split; discriminate.
Qed.

Lemma countGoals_snoc (older : list DriveMessage) (last : DriveMessage)
  (g : Goal) :
  countGoals (older ++ [last]) g
  = if hasGoal g last then S (countGoals older g) else 0%nat.
Proof.
  rewrite !countGoals_countConsecutive, rev_app_distr. reflexivity.
Qed.

Lemma countConsecutive_split (g : Goal) (newestFirst : list DriveMessage) :
  let n := countConsecutive g newestFirst in
  Forall (fun c => hasGoal g c = true) (firstn n newestFirst)
  /\ (n <= List.length newestFirst)%nat
  /\ match skipn n newestFirst with
     | [] => True
     | c :: _ => hasGoal g c = false
     end.
Proof.
  induction newestFirst as [|c l IH]; simpl.
  - repeat split; auto.
  - destruct (hasGoal g c) eqn:E; simpl.
    + destruct IH as (IH1 & IH2 & IH3). repeat split; auto. lia.
    + repeat split; auto. lia.
Qed.

(** X1.  [countGoals] counts the longest run of commands with the goal at
    the recent end of the history: the history splits into older commands
    and a run of that length, every command of the run has the goal, and
    the older part is empty or ends with a command that has not. *)
Theorem countGoals_run (commandHistory : list DriveMessage) (g : Goal) :
  exists older run : list DriveMessage,
    commandHistory = older ++ run
    /\ List.length run = countGoals commandHistory g
    /\ Forall (fun c => hasGoal g c = true) run
    /\ (older = []
        \/ exists before c, older = before ++ [c] /\ hasGoal g c = false).
Proof.
  rewrite countGoals_countConsecutive.
  destruct (countConsecutive_split g (rev commandHistory)) as (Hall & Hle & Hnext).
  set (n := countConsecutive g (rev commandHistory)) in *.
  exists (rev (skipn n (rev commandHistory))), (rev (firstn n (rev commandHistory))).
  repeat split.
  - rewrite <- rev_app_distr, firstn_skipn. now rewrite rev_involutive.
  - rewrite length_rev, firstn_length_le; trivial.
  - apply Forall_rev. exact Hall.
  - destruct (skipn n (rev commandHistory)) as [|c rest]; [now left|].
    right. exists (rev rest), c. split; trivial.
Qed.

(** X2.  A command appended to the history with the goal raises the count
    of that goal by one, and any other command brings it back to 0; so at
    most one goal has a positive count. *)
Theorem countGoals_append (commandHistory : list DriveMessage)
  (command : DriveMessage) (g g' : Goal) :
  countGoals (commandHistory ++ [command]) g
  = (if hasGoal g command then S (countGoals commandHistory g) else 0%nat)
  /\ (g <> g' ->
      (0 < countGoals commandHistory g)%nat ->
      countGoals commandHistory g' = 0%nat).
Proof.
  split; [apply countGoals_snoc|].
  intros Hne Hpos.
  induction commandHistory as [|last older _] using rev_ind.
  - reflexivity.
  - rewrite countGoals_snoc in *.
    destruct (hasGoal g last) eqn:E; [|lia].
    destruct (hasGoal g' last) eqn:E'; trivial.
    elim Hne. eapply hasGoal_unique; eauto.
Qed.

Lemma countGoals_append_witness :
  countGoals fiveBallTurns SEEK_HOME_TURN = 0%nat.
Proof.
  apply (countGoals_append fiveBallTurns Command.new SEEK_BALL_TURN
           SEEK_HOME_TURN).
  - discriminate.
  - vm_compute. lia.
Defined.

(** ** Escalation of the search *)

Lemma finishCommand_goal (msg : SensorMessage) (command : DriveMessage)
  (g : Goal) :
  hasGoal g (finishCommand msg command) = hasGoal g command.
Proof. reflexivity. Qed.

(** X3.  When the command of a search strategy is appended to the history,
    as the controller does once it has sent it, the count of the seek-turn
    goal grows by one while it is below 5 and drops to 0 at 5: a search
    never turns more than five times in a row.  The relocation of the home
    search keeps the count of [GO2BASE] positive. *)
Theorem search_turns_at_most_five (settings : Settings)
  (commandHistory : list DriveMessage) (msg : SensorMessage)
  (response : VisionResponse) (rnd : Random) :
  let ball :=
    finishCommand msg
      (fst (ballSearchStrategy settings commandHistory response rnd)) in
  let home :=
    finishCommand msg
      (fst (homeSearchStrategy settings commandHistory response rnd)) in
  let ballTurns := countGoals commandHistory SEEK_BALL_TURN in
  let homeTurns := countGoals commandHistory SEEK_HOME_TURN in
  countGoals (commandHistory ++ [ball]) SEEK_BALL_TURN
  = (if (ballTurns <? 5)%nat then S ballTurns else 0%nat)
  /\ countGoals (commandHistory ++ [home]) SEEK_HOME_TURN
     = (if (homeTurns <? 5)%nat then S homeTurns else 0%nat)
  /\ ((5 <= homeTurns)%nat ->
      (0 < countGoals (commandHistory ++ [home]) GO2BASE)%nat).
Proof.
  intros ball home ballTurns homeTurns.
  unfold ball, home. rewrite !countGoals_snoc, !finishCommand_goal.
  unfold ballSearchStrategy, homeSearchStrategy.
  fold ballTurns homeTurns.
  destruct (ballTurns <? 5)%nat, (homeTurns <? 5)%nat eqn:E;
    repeat split; try reflexivity; intro H;
    try (apply Nat.ltb_lt in E; lia); simpl; lia.
Qed.

Lemma search_turns_at_most_five_witness :
  (0 < countGoals
         (fiveHomeTurns
          ++ [finishCommand redCar
                (fst (homeSearchStrategy sampleSettings fiveHomeTurns
                        (mkVisionResponse []) (constantRandom 0)))])
         GO2BASE)%nat.
Proof.
  apply (search_turns_at_most_five sampleSettings fiveHomeTurns redCar
           (mkVisionResponse []) (constantRandom 0)).
  vm_compute. lia.
Defined.

(** ** More on the geometry *)

Lemma int_le (k z : Z) :
  (k <= z)%Z -> Num.leb (Num.int k) (Num.int z) = true.
Proof. intro H. apply Qle_bool_iff. now rewrite <- Zle_Qle. Qed.

Lemma int_not_lt (k z : Z) :
  (k <= z)%Z -> Num.ltb (Num.int z) (Num.int k) = false.
Proof. intro H. apply NumFacts.leb_antiltb. now apply int_le. Qed.

Lemma round_at_least (k : Z) (q : Q) :
  inject_Z k <= q -> (k <= Qfloor (q + (1 # 2)))%Z.
Proof.
  intro H. rewrite <- (Qfloor_Z k). apply Qfloor_resp_le. lra.
Qed.

Lemma findDistanceMM_range (settings : Settings) (bBox : BBox)
  (realObjectVerticalSizeMm : number) :
  let r := findDistanceMM settings bBox realObjectVerticalSizeMm in
  Num.ltb r 20%js = false /\ (Num.ltb 20%js r = true -> Num.leb 60%js r = true).
Proof.
  unfold findDistanceMM.
  destruct (pinholeDistance settings bBox realObjectVerticalSizeMm)
    as [q| | |]; cbn [Num.ltb Num.leb Num.sub Num.add Num.neg Num.round];
    try (split; [reflexivity|discriminate || reflexivity]).
  destruct (Num.Qltb q 95) eqn:E95;
    [split; [reflexivity|discriminate]|].
  apply NumFacts.Qltb_ge in E95.
  destruct (Num.Qltb q 325) eqn:E325.
  - apply NumFacts.Qltb_lt in E325.
    assert (H : (60 <= Qfloor (q + - (35) + (1 # 2)))%Z).
    { apply round_at_least. change (inject_Z 60) with 60. lra. }
    split; [apply (int_not_lt 20); lia|intros _; now apply (int_le 60)].
  - apply NumFacts.Qltb_ge in E325.
    assert (H : (325 <= Qfloor (q + (1 # 2)))%Z).
    { apply round_at_least. change (inject_Z 325) with 325. lra. }
    split; [apply (int_not_lt 20); lia|intros _; apply (int_le 60); lia].
Qed.

(** X4.  [findDistanceMM] never returns a distance below 20 mm, and none
    strictly between 20 mm and 60 mm. *)
Theorem findDistanceMM_never_between (settings : Settings) (bBox : BBox)
  (realObjectVerticalSizeMm : number) :
  Num.ltb (findDistanceMM settings bBox realObjectVerticalSizeMm) 20%js
  = false
  /\ (Num.ltb 20%js (findDistanceMM settings bBox realObjectVerticalSizeMm)
      = true ->
      Num.leb 60%js (findDistanceMM settings bBox realObjectVerticalSizeMm)
      = true).
Proof. apply findDistanceMM_range. Qed.

Lemma findDistanceMM_never_between_witness :
  Num.leb 60%js
    (findDistanceMM sampleSettings midBall (BALL_SIZE_MM sampleSettings))
  = true.
Proof.
  apply (findDistanceMM_never_between sampleSettings midBall
           (BALL_SIZE_MM sampleSettings)).
  reflexivity.
Defined.

Lemma Qdiv_antitone (a p1 p2 : Q) :
  0 <= a -> 0 < p1 -> p1 <= p2 -> a / p2 <= a / p1.
Proof.
  intros Ha Hp1 Hle.
  assert (Ht : 0 <= a / p1) by (apply Qle_shift_div_l; lra).
  apply Qle_shift_div_r; [lra|].
  assert (Ea : a == a / p1 * p1) by (field; lra).
  apply Qle_trans with (a / p1 * p1); [rewrite <- Ea; apply Qle_refl|].
  rewrite (Qmult_comm _ p1), (Qmult_comm _ p2).
  now apply Qmult_le_compat_r.
Qed.

Lemma Qeqb_nonzero (p : Q) : 0 < p -> Num.Qeqb p 0 = false.
Proof.
  intro H. destruct (Num.Qeqb p 0) eqn:E; trivial.
  apply NumFacts.Qeqb_eq in E. lra.
Qed.

Lemma correction_mono (p q : Q) :
  p <= q ->
  Num.leb
    (if Fin p <? 95 then 20 else if Fin p <? 325 then Fin p - 35 else Fin p)%js
    (if Fin q <? 95 then 20 else if Fin q <? 325 then Fin q - 35 else Fin q)%js
  = true.
Proof.
  intro H. cbn [Num.ltb Num.sub Num.add Num.neg].
  destruct (Num.Qltb p 95) eqn:P95, (Num.Qltb p 325) eqn:P325,
    (Num.Qltb q 95) eqn:Q95, (Num.Qltb q 325) eqn:Q325;
    cbn [Num.leb]; NumFacts.qbool.
Qed.

(** X5.  With positive camera constants, a box that is larger in the picture
    never gets the larger distance: [findDistanceMM] does not increase with
    the larger side of the box. *)
Theorem findDistanceMM_antitone (settings : Settings) (b1 b2 : BBox)
  (focal sensor minimum size s1 s2 : Q) :
  FOCAL_LENGTH_MM (camera settings) = Fin focal ->
  SENSOR_HEIGHT_MM (camera settings) = Fin sensor ->
  MIN_DISTANCE_TO_CAMERA_MM settings = Fin minimum ->
  Num.max (h b1) (w b1) = Fin s1 ->
  Num.max (h b2) (w b2) = Fin s2 ->
  0 < focal -> 0 < sensor -> 0 <= size ->
  0 < s1 -> s1 <= s2 ->
  Num.leb (findDistanceMM settings b2 (Fin size))
    (findDistanceMM settings b1 (Fin size)) = true.
Proof.
  intros Hf Hs Hm H1 H2 Pf Ps Psize P1 Hle.
  assert (L1 : 0 < s1 * sensor) by (apply Qmult_lt_0_compat; lra).
  assert (L2 : s1 * sensor <= s2 * sensor)
    by (apply Qmult_le_compat_r; lra).
  assert (N : 0 <= focal * size) by (apply Qmult_le_0_compat; lra).
  unfold findDistanceMM, pinholeDistance. rewrite Hf, Hs, Hm, H1, H2.
  cbn [Num.mul Num.div].
  rewrite !Qeqb_nonzero by lra.
  cbn [Num.sub Num.add Num.neg].
  apply NumFacts.round_mono, correction_mono.
  pose proof (Qdiv_antitone (focal * size) (s1 * sensor) (s2 * sensor) N L1 L2).
  lra.
Qed.

Lemma findDistanceMM_antitone_witness :
  Num.leb
    (findDistanceMM sampleSettings midBall (BALL_SIZE_MM sampleSettings))
    (findDistanceMM sampleSettings farBall (BALL_SIZE_MM sampleSettings))
  = true.
Proof.
  apply (findDistanceMM_antitone sampleSettings farBall midBall
           3.04 2.76 10 65 0.1 0.3);
    reflexivity || discriminate.
Defined.

(** X6.  With a positive field of view, [findAngle] is not positive for a
    box whose centre is in the left half of the picture, and not negative for
    a box whose centre is in the right half: a positive angle means turn
    right, a negative one turn left. *)
Theorem findAngle_sign (settings : Settings) (bBox : BBox) (fov : Q) :
  H_FIELD_OF_VIEW (camera settings) = Fin fov ->
  0 < fov ->
  (Num.leb (centerX bBox) (Fin 0.5) = true ->
   Num.leb (findAngle settings bBox) 0%js = true)
  /\ (Num.leb (Fin 0.5) (centerX bBox) = true ->
      Num.leb 0%js (findAngle settings bBox) = true).
Proof.
  intros Hfov Hpos.
  assert (Zero : Num.round ((Fin 0.5 - Fin 0.5) * Fin fov * Fin 0.75)%js
                 = 0%js).
  { cbn [Num.sub Num.add Num.neg Num.mul Num.round].
    change 0%js with (Num.int (Qfloor (1 # 2))).
    f_equal. apply Qfloor_comp. ring. }
  unfold findAngle, ANGLE_CALIBRATION_MULTIPLIER. rewrite Hfov.
  split; intro H; rewrite <- Zero; apply NumFacts.round_mono;
    (apply scale_mono; [lra|]); (apply scale_mono; [exact Hpos|]);
    now apply sub_mono.
Qed.

Lemma findAngle_sign_witness :
  Num.leb (findAngle sampleSettings leftBall) 0%js = true.
Proof.
  apply (findAngle_sign sampleSettings leftBall 62.2 eq_refl).
  - reflexivity.
  - reflexivity.
Defined.

(** ** More on the choice of the detection *)

(** X7.  Detections that do not carry the wanted label, or that the
    false-positive filter drops, have no influence on the choice: removing
    them from the list leaves the result of [findNearestObject] as it
    is. *)
Theorem findNearestObject_ignores_others (settings : Settings)
  (objectType : string) (boxes : list BBox) :
  findNearestObject settings objectType
    (mkVisionResponse (filter (candidate settings objectType) boxes))
  = findNearestObject settings objectType (mkVisionResponse boxes).
Proof.
  rewrite !findNearestObject_fold. simpl. f_equal.
  induction boxes as [|a boxes IH]; simpl; trivial.
  destruct (candidate settings objectType a) eqn:E; simpl.
  - now rewrite IH.
  - rewrite IH. rewrite (consider_cases settings objectType a), E.
    reflexivity.
Qed.

(** ** The commands of [nextMove] *)

Lemma finishCommand_shape (msg : SensorMessage) (command : DriveMessage) :
  correlationID (finishCommand msg command) = timestampMs msg
  /\ actions (finishCommand msg command)
     = actions command ++ [SendSensorMessage]
  /\ goal (finishCommand msg command) = goal command
  /\ mode (finishCommand msg command) = mode command.
Proof. repeat split. Qed.

(** X8.  With the simulation off, every command [nextMove] returns carries
    the timestamp of the sensor message as its correlation ID, and its last
    action asks the car for the next sensor message. *)
Theorem nextMove_correlation (settings : Settings)
  (driveSimulation : DriveMessageSimulator)
  (commandHistory : list DriveMessage) (msg : SensorMessage)
  (response : VisionResponse) (rnd rnd' : Random) (command : DriveMessage) :
  simulate driveSimulation = false ->
  nextMove settings driveSimulation commandHistory msg response rnd
  = Ok (command, rnd') ->
  correlationID command = timestampMs msg
  /\ exists before, actions command = before ++ [SendSensorMessage].
Proof.
  intros Hsim. unfold nextMove, readCarState.
  destruct (carState msg) as [cs|] eqn:Hcs; simpl; [|discriminate].
  destruct (_ || _).
  - unfold navigate2home, readCarState. rewrite Hcs. simpl.
    destruct (match findNearestObject settings _ response with
              | Some _ => _ | None => _ end) as [c r].
    intro H. injection H as <- <-. split; [reflexivity|].
    now exists (actions c).
  - destruct (_ <? _)%js.
    + unfold navigate2ball, readCarState. rewrite Hsim, Hcs. simpl.
      destruct (match findNearestObject settings _ response with
                | Some _ => _ | None => _ end) as [[c r]|]; simpl;
        [|discriminate].
      intro H. injection H as <- <-. split; [reflexivity|].
      now exists (actions c).
    + intro H. injection H as <- <-. split; [reflexivity|].
      now exists [].
Qed.

Lemma nextMove_correlation_witness :
  correlationID
    (finishCommand redCar
       (fst (ballSearchStrategy sampleSettings [] (mkVisionResponse [])
               (constantRandom 0))))
  = timestampMs redCar
  /\ exists before,
      actions
        (finishCommand redCar
           (fst (ballSearchStrategy sampleSettings [] (mkVisionResponse [])
                   (constantRandom 0))))
      = before ++ [SendSensorMessage].
Proof.
  apply (nextMove_correlation sampleSettings noSimulation [] redCar
           (mkVisionResponse []) (constantRandom 0) (constantRandom 0)).
  - reflexivity.
  - reflexivity.
Defined.

(** ** Obstacles, approach and capture *)

Lemma not_below_250_not_captured (d : number) :
  Num.ltb d 250%js = false -> Num.leb d 70%js = false.
Proof.
  destruct d; simpl; try reflexivity; try discriminate.
  intro H. NumFacts.qbool.
Qed.

(** X9.  The obstacle flag of the car matters only at a distance: a ball
    closer than 250 mm and a home base closer than 850 mm are handled the
    same with and without an obstacle, and from these distances on an
    obstacle always hands over to the search strategy. *)
Theorem obstacle_matters_only_far (settings : Settings)
  (commandHistory : list DriveMessage) (bBox : BBox)
  (response : VisionResponse) (rnd : Random) :
  (Num.ltb (findDistanceMM settings bBox (BALL_SIZE_MM settings)) 250%js
   = true ->
   calculateBallDirections settings commandHistory bBox true response rnd
   = calculateBallDirections settings commandHistory bBox false response rnd)
  /\ (Num.ltb (findDistanceMM settings bBox (BALL_SIZE_MM settings)) 250%js
      = false ->
      calculateBallDirections settings commandHistory bBox true response rnd
      = Ok (ballSearchStrategy settings commandHistory response rnd))
  /\ (Num.ltb (findDistanceMM settings bBox (HOME_SIZE_MM settings)) 850%js
      = true ->
      calculateHomeDirections settings commandHistory bBox true response rnd
      = calculateHomeDirections settings commandHistory bBox false response
          rnd)
  /\ (Num.ltb (findDistanceMM settings bBox (HOME_SIZE_MM settings)) 850%js
      = false ->
      calculateHomeDirections settings commandHistory bBox true response rnd
      = homeSearchStrategy settings commandHistory response rnd).
Proof.
  repeat split; intro H.
  - unfold calculateBallDirections. rewrite H.
    now destruct (_ && _).
  - unfold calculateBallDirections.
    rewrite H, (not_below_250_not_captured _ H), andb_false_r. reflexivity.
  - unfold calculateHomeDirections. now rewrite H.
  - unfold calculateHomeDirections. now rewrite H.
Qed.

Lemma obstacle_matters_only_far_witness :
  calculateBallDirections sampleSettings [] farBall true (mkVisionResponse [])
    (constantRandom 0)
  = Ok (ballSearchStrategy sampleSettings [] (mkVisionResponse [])
          (constantRandom 0)).
Proof.
  apply (obstacle_matters_only_far sampleSettings [] farBall
           (mkVisionResponse []) (constantRandom 0)).
  reflexivity.
Defined.

(** X10.  A ball the car sees and has not captured is approached forwards:
    unless an obstacle at 250 mm or more sends the car searching,
    [calculateBallDirections] returns a command with goal [GO2BALL] that
    first turns by the angle of the ball and last drives a positive
    distance. *)
Theorem approach_drives_forward (settings : Settings)
  (commandHistory : list DriveMessage) (bBox : BBox) (obstacle_found : bool)
  (response : VisionResponse) (rnd : Random) :
  captureCondition settings bBox = false ->
  isNumber (findDistanceMM settings bBox (BALL_SIZE_MM settings)) ->
  Num.ltb (findDistanceMM settings bBox (BALL_SIZE_MM settings)) 250%js = true
  \/ obstacle_found = false ->
  exists (between : list Action) (d : number),
    calculateBallDirections settings commandHistory bBox obstacle_found
      response rnd
    = Ok (plainCommand AUTOMATIC_MODE GO2BALL
            (MakeTurn (findAngle settings bBox) :: between ++ [Drive d]),
          rnd)
    /\ Num.ltb 0%js d = true.
Proof.
  intros Hcap Hnum Hcase. unfold calculateBallDirections.
  unfold captureCondition in Hcap. rewrite Hcap.
  pose proof (findDistanceMM_range settings bBox (BALL_SIZE_MM settings))
    as [Hlow _].
  unfold isNumber in Hnum.
  destruct (findDistanceMM settings bBox (BALL_SIZE_MM settings))
    as [q| | |] eqn:Ed; try discriminate.
  - simpl in Hlow. apply NumFacts.Qltb_ge in Hlow.
    destruct (Fin q <? 250)%js eqn:E250.
    + exists [GripperOpen; SetSpeed (MAX_SPEED settings * Fin 0.05)%js].
      eexists. split; [reflexivity|].
      simpl. apply NumFacts.Qltb_lt. lra.
    + destruct Hcase as [Hc | ->]; [discriminate|].
      exists [SetSpeed (MAX_SPEED settings)].
      eexists. split; [reflexivity|].
      simpl in E250. apply NumFacts.Qltb_ge in E250.
      simpl. apply NumFacts.Qltb_lt. lra.
  - destruct Hcase as [Hc | ->]; [discriminate|].
    exists [SetSpeed (MAX_SPEED settings)].
    eexists. split; reflexivity.
Qed.

Lemma approach_drives_forward_witness :
  exists (between : list Action) (d : number),
    calculateBallDirections sampleSettings [] midBall false
      (mkVisionResponse []) (constantRandom 0)
    = Ok (plainCommand AUTOMATIC_MODE GO2BALL
            (MakeTurn (findAngle sampleSettings midBall)
               :: between ++ [Drive d]),
          constantRandom 0)
    /\ Num.ltb 0%js d = true.
Proof.
  apply (approach_drives_forward sampleSettings [] midBall false
           (mkVisionResponse []) (constantRandom 0)).
  - reflexivity.
  - reflexivity.
  - left. reflexivity.
Defined.

(** ** From capture to the way home and back *)

Lemma nextMove_seeks_ball (settings : Settings)
  (driveSimulation : DriveMessageSimulator)
  (commandHistory : list DriveMessage) (msg : SensorMessage) (cs : CarState)
  (response : VisionResponse) (rnd : Random) (bBox : BBox) :
  carState msg = Some cs ->
  simulate driveSimulation = false ->
  countGoals commandHistory GO2BASE = 0%nat ->
  countGoals commandHistory SEEK_HOME_TURN = 0%nat ->
  Num.ltb (ballsCollected cs) (BALLS_NEEDED settings) = true ->
  findNearestObject settings (color cs ++ BALL_LABEL_SUFFIX settings)%string
    response = Some bBox ->
  nextMove settings driveSimulation commandHistory msg response rnd
  = bind (calculateBallDirections settings commandHistory bBox
            (obstacleSeen cs) response rnd)
      (fun cr => Ok (finishCommand msg (fst cr), snd cr)).
Proof.
  intros Hcs Hsim H1 H2 Hballs Hbox.
  unfold nextMove, readCarState. rewrite Hcs. simpl.
  rewrite H1, H2, Hballs. simpl.
  unfold navigate2ball, readCarState. rewrite Hsim, Hcs. simpl.
  rewrite Hbox.
  destruct (calculateBallDirections settings commandHistory bBox
              (obstacleSeen cs) response rnd) as [[c r]|]; reflexivity.
Qed.

(** X11.  The capture runs over three messages.  On a history that ends
    with a command of another goal than [GO2BASE], [SEEK_HOME_TURN] and
    [CHECK_GRIP], a car that still needs balls and sees a ball within reach
    gets the grip-check command.  Once that command is in the history, a
    second message with a ball within reach gets the command with goal
    [GO2BASE] and no action but the request for the next message.  Once that
    one is in the history too, the next message is answered by
    [navigate2home], whatever the number of balls. *)
Theorem capture_leads_home (settings : Settings)
  (driveSimulation : DriveMessageSimulator)
  (older : list DriveMessage) (last : DriveMessage)
  (msg1 msg2 msg3 : SensorMessage) (cs1 cs2 cs3 : CarState)
  (response1 response2 response3 : VisionResponse)
  (bBox1 bBox2 : BBox) (rnd : Random) :
  let gripCheck :=
    finishCommand msg1
      (plainCommand AUTOMATIC_MODE CHECK_GRIP
         [GripperClose; SetSpeed (MAX_SPEED settings / 2)%js;
          Drive (- 250)%js]) in
  let goHome := finishCommand msg2 (plainCommand AUTOMATIC_MODE GO2BASE []) in
  simulate driveSimulation = false ->
  hasGoal GO2BASE last = false ->
  hasGoal SEEK_HOME_TURN last = false ->
  hasGoal CHECK_GRIP last = false ->
  carState msg1 = Some cs1 ->
  carState msg2 = Some cs2 ->
  carState msg3 = Some cs3 ->
  Num.ltb (ballsCollected cs1) (BALLS_NEEDED settings) = true ->
  Num.ltb (ballsCollected cs2) (BALLS_NEEDED settings) = true ->
  findNearestObject settings (color cs1 ++ BALL_LABEL_SUFFIX settings)%string
    response1 = Some bBox1 ->
  findNearestObject settings (color cs2 ++ BALL_LABEL_SUFFIX settings)%string
    response2 = Some bBox2 ->
  captureCondition settings bBox1 = true ->
  captureCondition settings bBox2 = true ->
  nextMove settings driveSimulation (older ++ [last]) msg1 response1 rnd
  = Ok (gripCheck, rnd)
  /\ nextMove settings driveSimulation (older ++ [last] ++ [gripCheck]) msg2
       response2 rnd
     = Ok (goHome, rnd)
  /\ nextMove settings driveSimulation
       (older ++ [last] ++ [gripCheck] ++ [goHome]) msg3 response3 rnd
     = navigate2home settings (older ++ [last] ++ [gripCheck] ++ [goHome])
         msg3 response3 rnd.
Proof.
  intros gripCheck goHome Hsim Hb Ht Hg Hcs1 Hcs2 Hcs3 Hn1 Hn2 Hf1 Hf2 Hc1 Hc2.
  unfold captureCondition in Hc1, Hc2.
  apply andb_true_iff in Hc1, Hc2. destruct Hc1 as [Ha1 Hd1], Hc2 as [Ha2 Hd2].
  repeat split.
  - rewrite (nextMove_seeks_ball settings driveSimulation (older ++ [last])
               msg1 cs1 response1 rnd bBox1); trivial;
      try (rewrite countGoals_snoc; now rewrite ?Hb, ?Ht).
    rewrite (calculateBallDirections_capture settings older last bBox1
               (obstacleSeen cs1) response1 rnd Ha1 Hd1), Hg.
    reflexivity.
  - rewrite app_assoc.
    rewrite (nextMove_seeks_ball settings driveSimulation
               ((older ++ [last]) ++ [gripCheck]) msg2 cs2 response2 rnd
               bBox2); trivial;
      try (rewrite countGoals_snoc; reflexivity).
    rewrite (calculateBallDirections_capture settings (older ++ [last])
               gripCheck bBox2 (obstacleSeen cs2) response2 rnd Ha2 Hd2).
    reflexivity.
  - rewrite !app_assoc. unfold nextMove, readCarState. rewrite Hcs3. simpl.
    rewrite (countGoals_snoc _ goHome GO2BASE). reflexivity.
Qed.

Lemma capture_leads_home_witness :
  nextMove sampleSettings noSimulation ([] ++ [Command.new]) redCar
    (mkVisionResponse [nearBall]) (constantRandom 0)
  = Ok (finishCommand redCar
          (plainCommand AUTOMATIC_MODE CHECK_GRIP
             [GripperClose; SetSpeed (MAX_SPEED sampleSettings / 2)%js;
              Drive (- 250)%js]),
        constantRandom 0).
Proof.
  apply (capture_leads_home sampleSettings noSimulation [] Command.new
           redCar redCar redCar
           (mkCarState (Fin 0) "red" None) (mkCarState (Fin 0) "red" None)
           (mkCarState (Fin 0) "red" None)
           (mkVisionResponse [nearBall]) (mkVisionResponse [nearBall])
           (mkVisionResponse [nearBall]) nearBall nearBall
           (constantRandom 0));
    reflexivity.
Defined.

Lemma homeSearchStrategy_goal (settings : Settings)
  (commandHistory : list DriveMessage) (response : VisionResponse)
  (rnd : Random) :
  let command :=
    fst (homeSearchStrategy settings commandHistory response rnd) in
  ballCount command = 0%nat
  /\ (goal command = Some GO2BASE \/ goal command = Some SEEK_HOME_TURN).
Proof.
  unfold homeSearchStrategy.
  destruct (_ <? 5)%nat; simpl; auto.
Qed.

Lemma home_goal_counts (commandHistory : list DriveMessage)
  (msg : SensorMessage) (command : DriveMessage) :
  goal command = Some GO2BASE \/ goal command = Some SEEK_HOME_TURN ->
  (0 < countGoals (commandHistory ++ [finishCommand msg command]) GO2BASE
   \/ 0 < countGoals (commandHistory ++ [finishCommand msg command])
          SEEK_HOME_TURN)%nat.
Proof.
  intros [H|H]; [left|right]; rewrite countGoals_snoc, finishCommand_goal;
    apply hasGoal_goal in H; rewrite H; lia.
Qed.

(** X12.  Once the history ends with a command of goal [GO2BASE] or
    [SEEK_HOME_TURN], [nextMove] keeps the car on its way home until the base
    is reached.  It returns a command; when the home base is in the picture
    closer than 850 mm, the command counts one ball and has the goal
    [GO2BALL], so that with it in the history both counts are 0 again;
    otherwise the command counts no ball and, with it in the history, one of
    the two counts is positive again. *)
Theorem home_commitment (settings : Settings)
  (driveSimulation : DriveMessageSimulator)
  (commandHistory : list DriveMessage) (msg : SensorMessage) (cs : CarState)
  (response : VisionResponse) (rnd : Random) :
  carState msg = Some cs ->
  (0 < countGoals commandHistory GO2BASE
   \/ 0 < countGoals commandHistory SEEK_HOME_TURN)%nat ->
  exists command rnd',
    nextMove settings driveSimulation commandHistory msg response rnd
    = Ok (command, rnd')
    /\ if homeReached settings cs response
       then goal command = Some GO2BALL
            /\ ballCount command = 1%nat
            /\ countGoals (commandHistory ++ [command]) GO2BASE = 0%nat
            /\ countGoals (commandHistory ++ [command]) SEEK_HOME_TURN
               = 0%nat
       else ballCount command = 0%nat
            /\ (0 < countGoals (commandHistory ++ [command]) GO2BASE
                \/ 0 < countGoals (commandHistory ++ [command])
                       SEEK_HOME_TURN)%nat.
Proof.
  intros Hcs Hhome.
  assert (E : ((0 <? countGoals commandHistory GO2BASE)%nat
               || (0 <? countGoals commandHistory SEEK_HOME_TURN)%nat)
              = true).
  { destruct Hhome as [H|H]; apply Nat.ltb_lt in H; rewrite H; trivial.
    now rewrite orb_true_r. }
  unfold nextMove, readCarState. rewrite Hcs. simpl. rewrite E.
  unfold navigate2home, readCarState, homeReached. rewrite Hcs. simpl.
  pose proof (homeSearchStrategy_goal settings commandHistory response rnd)
    as Hsearch.
  destruct (findNearestObject settings _ response) as [bBox|].
  - unfold calculateHomeDirections.
    destruct (_ <? 850)%js.
    + do 2 eexists. split; [reflexivity|].
      rewrite !countGoals_snoc. repeat split.
    + destruct (obstacleSeen cs).
      * destruct (homeSearchStrategy settings commandHistory response rnd)
          as [c r]. simpl in Hsearch. destruct Hsearch as [Hb Hg].
        exists (finishCommand msg c), r. split; [reflexivity|].
        split; [exact Hb|]. now apply home_goal_counts.
      * do 2 eexists. split; [reflexivity|]. split; [reflexivity|].
        left. rewrite countGoals_snoc. simpl. lia.
  - destruct (homeSearchStrategy settings commandHistory response rnd)
      as [c r]. simpl in Hsearch. destruct Hsearch as [Hb Hg].
    exists (finishCommand msg c), r. split; [reflexivity|].
    split; [exact Hb|]. now apply home_goal_counts.
Qed.

Lemma home_commitment_witness :
  exists command rnd',
    nextMove sampleSettings noSimulation fiveHomeTurns redCar
      (mkVisionResponse []) (constantRandom 0)
    = Ok (command, rnd')
    /\ if homeReached sampleSettings (mkCarState (Fin 0) "red" None)
            (mkVisionResponse [])
       then goal command = Some GO2BALL
            /\ ballCount command = 1%nat
            /\ countGoals (fiveHomeTurns ++ [command]) GO2BASE = 0%nat
            /\ countGoals (fiveHomeTurns ++ [command]) SEEK_HOME_TURN
               = 0%nat
       else ballCount command = 0%nat
            /\ (0 < countGoals (fiveHomeTurns ++ [command]) GO2BASE
                \/ 0 < countGoals (fiveHomeTurns ++ [command])
                       SEEK_HOME_TURN)%nat.
Proof.
  apply (home_commitment sampleSettings noSimulation fiveHomeTurns redCar
           (mkCarState (Fin 0) "red" None) (mkVisionResponse [])
           (constantRandom 0) eq_refl).
  right. vm_compute. lia.
Defined.

(** ** Runs of the message handler *)

Lemma truthy_isNumber (t : number) : Num.truthy t = true -> isNumber t.
Proof.
  unfold isNumber. destruct t; simpl; try discriminate; trivial.
  intros _. apply Qle_bool_iff. apply Qle_refl.
Qed.

Lemma not_below_above (a b : number) :
  isNumber a -> isNumber b -> Num.ltb a b = false -> Num.leb b a = true.
Proof.
  unfold isNumber. destruct a, b; simpl; try discriminate; try reflexivity.
  intros _ _ H. NumFacts.qbool.
Qed.

(** One message: what the handler does to the counters, the mode and the
    greatest timestamp. *)
Lemma handler_step (now : number) (msg : SensorMessage)
  (st : Controller.State) :
  let st' := snd (Controller.inboudMessageHandler now msg st) in
  Controller.totalMessagesReceived st'
  = S (Controller.totalMessagesReceived st)
  /\ Controller.currentDrivingMode st' = Controller.currentDrivingMode st
  /\ (Controller.totalErrors st' + Controller.rejectedFormatMessages st
      + Controller.rejectedOutOfOrderMessages st
      = Controller.totalErrors st + Controller.rejectedFormatMessages st'
        + Controller.rejectedOutOfOrderMessages st')%nat
  /\ (isNumber (Controller.maxMsgTimeStampMs st) ->
      isNumber (Controller.maxMsgTimeStampMs st')
      /\ Num.leb (Controller.maxMsgTimeStampMs st)
           (Controller.maxMsgTimeStampMs st') = true).
Proof.
  unfold Controller.inboudMessageHandler, Controller.isMessageValid,
    Controller.noTimestamp, Controller.timestampOf.
  destruct (timestampMs msg) as [t|]; simpl.
  2:{ repeat split; simpl; trivial; lia. }
  destruct (Num.truthy t) eqn:Ht; simpl.
  2:{ repeat split; simpl; trivial; lia. }
  destruct (t <? Controller.maxMsgTimeStampMs st)%js eqn:Hlt; simpl.
  { repeat split; simpl; trivial; lia. }
  assert (Hmax : isNumber (Controller.maxMsgTimeStampMs st) ->
                 isNumber t
                 /\ Num.leb (Controller.maxMsgTimeStampMs st) t = true).
  { intro Hn. split; [now apply truthy_isNumber|].
    apply not_below_above; trivial. now apply truthy_isNumber. }
  destruct (t <? now - _)%js; simpl.
  { repeat split; simpl; try apply Hmax; trivial; lia. }
  destruct (Controller.currentDrivingMode st) eqn:Hmode; simpl;
    repeat split; simpl; try apply Hmax; trivial; lia.
Qed.

Lemma handleAll_accounting (msgs : list (number * SensorMessage))
  (st : Controller.State) :
  let st' := handleAll msgs st in
  Controller.totalMessagesReceived st'
  = (Controller.totalMessagesReceived st + List.length msgs)%nat
  /\ Controller.currentDrivingMode st' = Controller.currentDrivingMode st
  /\ (Controller.totalErrors st' + Controller.rejectedFormatMessages st
      + Controller.rejectedOutOfOrderMessages st
      = Controller.totalErrors st + Controller.rejectedFormatMessages st'
        + Controller.rejectedOutOfOrderMessages st')%nat.
Proof.
  revert st. induction msgs as [|[now msg] msgs IH]; intro st; simpl.
  - repeat split; lia.
  - destruct (handler_step now msg st) as (H1 & H2 & H3 & _).
    destruct (IH (snd (Controller.inboudMessageHandler now msg st)))
      as (I1 & I2 & I3).
    unfold handleAll in *. simpl in *.
    repeat split; try lia. congruence.
Qed.

Lemma handleAll_max (msgs : list (number * SensorMessage))
  (st : Controller.State) :
  isNumber (Controller.maxMsgTimeStampMs st) ->
  isNumber (Controller.maxMsgTimeStampMs (handleAll msgs st))
  /\ Num.leb (Controller.maxMsgTimeStampMs st)
       (Controller.maxMsgTimeStampMs (handleAll msgs st)) = true.
Proof.
  revert st. induction msgs as [|[now msg] msgs IH]; intros st Hn.
  - split; trivial.
  - destruct (handler_step now msg st) as (_ & _ & _ & Hmax).
    destruct (Hmax Hn) as [Hn' Hle].
    destruct (IH _ Hn') as [Hn'' Hle'].
    unfold handleAll in *. simpl in *. split; trivial.
    eapply NumFacts.leb_trans; eauto.
Qed.

Lemma handler_skips_older (now : number) (msg : SensorMessage) (t : number)
  (st : Controller.State) :
  timestampMs msg = Some t ->
  Num.ltb t (Controller.maxMsgTimeStampMs st) = true ->
  fst (Controller.inboudMessageHandler now msg st) = Controller.Skipped.
Proof.
  intros Ht Hlt.
  unfold Controller.inboudMessageHandler, Controller.isMessageValid,
    Controller.noTimestamp, Controller.timestampOf.
  rewrite Ht. simpl. destruct (Num.truthy t); simpl; trivial.
  now rewrite Hlt.
Qed.

(** X14.  The greatest timestamp seen never goes down over a run of
    messages, so a message that is older than the greatest timestamp seen
    before the run is skipped after the run too, whatever the run and the
    clock. *)
Theorem older_message_never_accepted (msgs : list (number * SensorMessage))
  (st : Controller.State) (now : number) (msg : SensorMessage) (t : number) :
  isNumber (Controller.maxMsgTimeStampMs st) ->
  timestampMs msg = Some t ->
  Num.ltb t (Controller.maxMsgTimeStampMs st) = true ->
  Num.leb (Controller.maxMsgTimeStampMs st)
    (Controller.maxMsgTimeStampMs (handleAll msgs st)) = true
  /\ fst (Controller.inboudMessageHandler now msg (handleAll msgs st))
     = Controller.Skipped.
Proof.
  intros Hn Ht Hlt. destruct (handleAll_max msgs st Hn) as [_ Hle].
  split; trivial.
  apply handler_skips_older with (t := t); trivial.
  eapply NumFacts.ltb_leb_trans; eauto.
Qed.

Lemma older_message_never_accepted_witness :
  Num.leb (Controller.maxMsgTimeStampMs drivingState)
    (Controller.maxMsgTimeStampMs
       (handleAll [((Fin 1519509836918 + 82)%js, redCar)] drivingState))
  = true
  /\ fst (Controller.inboudMessageHandler (Fin 1519509837000)
            (mkSensorMessage (Some (Fin 1519509836000)) None)
            (handleAll [((Fin 1519509836918 + 82)%js, redCar)] drivingState))
     = Controller.Skipped.
Proof.
  apply (older_message_never_accepted
           [((Fin 1519509836918 + 82)%js, redCar)] drivingState
           (Fin 1519509837000)
           (mkSensorMessage (Some (Fin 1519509836000)) None)
           (Fin 1519509836000));
    reflexivity.
Defined.

Lemma saveInboundMessage_length (msg : SensorMessage)
  (st : Controller.State) :
  (List.length (Controller.inboundMsgHistory st)
   <= Controller.MAX_INBOUND_HISTORY)%nat ->
  (List.length
     (Controller.inboundMsgHistory (Controller.saveInboundMessage msg st))
   <= Controller.MAX_INBOUND_HISTORY)%nat.
Proof.
  unfold Controller.saveInboundMessage. cbn [Controller.inboundMsgHistory].
  set (history := Controller.inboundMsgHistory st).
  set (n := List.length history).
  assert (E : Controller.MAX_INBOUND_HISTORY = 3600%nat) by reflexivity.
  rewrite E. intro H.
  destruct (Nat.leb_spec 3600 n) as [Hfull|Hroom];
    rewrite length_app; cbn [List.length].
  - rewrite length_skipn. fold n.
    pose proof (Nat.div_mod_eq n 10). pose proof (Nat.mod_upper_bound n 10).
    lia.
  - fold n. lia.
Qed.

Lemma isMessageValid_keeps (now : number) (msg : SensorMessage)
  (st : Controller.State) :
  Controller.inboundMsgHistory (snd (Controller.isMessageValid now msg st))
  = Controller.inboundMsgHistory st
  /\ Controller.currentDrivingMode
       (snd (Controller.isMessageValid now msg st))
     = Controller.currentDrivingMode st.
Proof.
  unfold Controller.isMessageValid.
  destruct (Controller.noTimestamp msg); [now split|].
  destruct (_ <? Controller.maxMsgTimeStampMs st)%js; [now split|].
  destruct (_ <? now - _)%js; now split.
Qed.

Lemma handler_outcome (now : number) (msg : SensorMessage)
  (st : Controller.State) :
  let received :=
    Controller.mkState (S (Controller.totalMessagesReceived st))
      (Controller.rejectedOutOfOrderMessages st)
      (Controller.rejectedFormatMessages st) (Controller.totalErrors st)
      (Controller.maxMsgTimeStampMs st) (Controller.inboundMsgHistory st)
      (Controller.currentDrivingMode st) in
  fst (Controller.isMessageValid now msg received)
  = fst (Controller.isMessageValid now msg st)
  /\ if fst (Controller.isMessageValid now msg st)
     then fst (Controller.inboudMessageHandler now msg st)
          = (if Controller.Mode_eqb (Controller.currentDrivingMode st)
                  MANUAL_MODE
             then Controller.Stored
             else Controller.PassedToNavigation msg)
          /\ Controller.inboundMsgHistory
               (snd (Controller.inboudMessageHandler now msg st))
             = Controller.inboundMsgHistory
                 (Controller.saveInboundMessage msg st)
     else fst (Controller.inboudMessageHandler now msg st)
          = Controller.Skipped
          /\ Controller.inboundMsgHistory
               (snd (Controller.inboudMessageHandler now msg st))
             = Controller.inboundMsgHistory st.
Proof.
  unfold Controller.inboudMessageHandler, Controller.isMessageValid.
  destruct (Controller.noTimestamp msg); [now split|].
  cbn [Controller.maxMsgTimeStampMs].
  destruct (_ <? Controller.maxMsgTimeStampMs st)%js; [now split|].
  destruct (_ <? now - _)%js; [now split|].
  split; [reflexivity|]. cbn [fst negb].
  unfold Controller.saveInboundMessage, Controller.setMaxMsgTimeStampMs.
  cbn [Controller.currentDrivingMode Controller.inboundMsgHistory].
  destruct (Controller.Mode_eqb _ _); split; reflexivity.
Qed.

(** X15.  The history of received messages never grows beyond 3600
    messages over a run; a message the handler skips leaves it as it is, and
    any other message becomes its newest entry. *)
Theorem inbound_history_bounded (msgs : list (number * SensorMessage))
  (st : Controller.State) (now : number) (msg : SensorMessage) :
  (List.length (Controller.inboundMsgHistory st) <= 3600)%nat ->
  (List.length (Controller.inboundMsgHistory (handleAll msgs st))
   <= 3600)%nat
  /\ (fst (Controller.inboudMessageHandler now msg st) = Controller.Skipped ->
      Controller.inboundMsgHistory
        (snd (Controller.inboudMessageHandler now msg st))
      = Controller.inboundMsgHistory st)
  /\ (fst (Controller.inboudMessageHandler now msg st) <> Controller.Skipped ->
      exists older,
        Controller.inboundMsgHistory
          (snd (Controller.inboudMessageHandler now msg st))
        = older ++ [msg]).
Proof.
  intro Hlen. split; [|split].
  - revert st Hlen.
    induction msgs as [|[now' msg'] msgs IH]; intros st Hlen; trivial.
    unfold handleAll in *. simpl. apply IH.
    destruct (handler_outcome now' msg' st) as [_ H].
    destruct (fst (Controller.isMessageValid now' msg' st));
      destruct H as [_ ->]; trivial.
    now apply saveInboundMessage_length.
  - destruct (handler_outcome now msg st) as [_ H].
    destruct (fst (Controller.isMessageValid now msg st));
      destruct H as [Ho Hh]; intro Hs; trivial.
    rewrite Ho in Hs. destruct (Controller.Mode_eqb _ _); discriminate.
  - destruct (handler_outcome now msg st) as [_ H].
    destruct (fst (Controller.isMessageValid now msg st));
      destruct H as [Ho Hh]; intro Hs; [|congruence].
    rewrite Hh. unfold Controller.saveInboundMessage. simpl. eauto.
Qed.

Lemma inbound_history_bounded_witness :
  (List.length
     (Controller.inboundMsgHistory
        (handleAll [((Fin 1519509836918 + 82)%js, redCar)] drivingState))
   <= 3600)%nat.
Proof.
  apply (inbound_history_bounded [((Fin 1519509836918 + 82)%js, redCar)]
           drivingState (Fin 0) redCar).
  simpl. lia.
Defined.

Lemma Mode_eqb_eq (a b : Mode) : Controller.Mode_eqb a b = true <-> a = b.
Proof. destruct a, b; simpl; split; congruence. Qed.

(** X16.  In manual mode no message of a run reaches the navigation; in the
    two other modes a message reaches it exactly when the validator accepts
    it. *)
Theorem navigation_only_outside_manual (msgs : list (number * SensorMessage))
  (st : Controller.State) (now : number) (msg : SensorMessage) :
  (Controller.currentDrivingMode st = MANUAL_MODE ->
   forall data,
     fst (Controller.inboudMessageHandler now msg (handleAll msgs st))
     <> Controller.PassedToNavigation data)
  /\ (Controller.currentDrivingMode st <> MANUAL_MODE ->
      (fst (Controller.inboudMessageHandler now msg (handleAll msgs st))
       = Controller.PassedToNavigation msg
       <-> fst (Controller.isMessageValid now msg (handleAll msgs st))
           = true)).
Proof.
  destruct (handleAll_accounting msgs st) as (_ & Hmode & _).
  destruct (handler_outcome now msg (handleAll msgs st)) as [_ H].
  rewrite Hmode in H.
  split; intro Hm.
  - intro data. rewrite Hm in H.
    destruct (fst (Controller.isMessageValid now msg (handleAll msgs st)));
      destruct H as [-> _]; discriminate.
  - assert (E : Controller.Mode_eqb (Controller.currentDrivingMode st)
                  MANUAL_MODE = false).
    { destruct (Controller.Mode_eqb _ _) eqn:E; trivial.
      apply Mode_eqb_eq in E. contradiction. }
    rewrite E in H.
    destruct (fst (Controller.isMessageValid now msg (handleAll msgs st)));
      destruct H as [-> _]; split; trivial; discriminate.
Qed.

Lemma navigation_only_outside_manual_witness :
  fst (Controller.inboudMessageHandler (Fin 1519509836918 + 82)%js redCar
         (handleAll [] drivingState))
  = Controller.PassedToNavigation redCar.
Proof.
  apply (navigation_only_outside_manual [] drivingState
           (Fin 1519509836918 + 82)%js redCar).
  - discriminate.
  - reflexivity.
Defined.

(** ** The history the navigation reads *)

Lemma writeArray_length (ref : nat) (content : list DriveMessage)
  (store : list (list DriveMessage)) :
  List.length (App.writeArray ref content store) = List.length store.
Proof.
  revert ref. induction store as [|a store IH]; intros [|ref]; simpl; auto.
Qed.

Lemma readArray_writeArray (ref : nat) (content : list DriveMessage)
  (store : list (list DriveMessage)) :
  (ref < List.length store)%nat ->
  App.readArray ref (App.writeArray ref content store) = content.
Proof.
  revert ref. induction store as [|a store IH]; intros [|ref] H; simpl in *;
    try lia; trivial.
  apply IH. lia.
Qed.

Lemma readArray_writeArray_other (ref ref' : nat)
  (content : list DriveMessage) (store : list (list DriveMessage)) :
  ref <> ref' ->
  App.readArray ref' (App.writeArray ref content store)
  = App.readArray ref' store.
Proof.
  revert ref ref'.
  induction store as [|a store IH]; intros [|ref] [|ref'] H; simpl;
    try reflexivity; try congruence.
  apply IH. congruence.
Qed.

Lemma publishCommand_refs (command : option DriveMessage) (err : bool)
  (st : App.State) :
  App.outboundMsgHistory (App.publishCommand command err st)
  = App.outboundMsgHistory st
  /\ App.commandHistory (App.publishCommand command err st)
     = App.commandHistory st
  /\ List.length (App.arrays (App.publishCommand command err st))
     = List.length (App.arrays st).
Proof.
  destruct command as [c|], err; simpl; repeat split; trivial.
  apply writeArray_length.
Qed.

(** The navigation and the variable [outboundMsgHistory] share one array. *)
Lemma shared_after_publishes (events : list App.Event) :
  forallb App.isPublish events = true ->
  let st := fold_left App.apply events App.initial in
  App.commandHistory st = App.outboundMsgHistory st /\ App.wellFormed st.
Proof.
  assert (G : forall st,
             (App.commandHistory st = App.outboundMsgHistory st
              /\ App.wellFormed st) ->
             forallb App.isPublish events = true ->
             App.commandHistory (fold_left App.apply events st)
             = App.outboundMsgHistory (fold_left App.apply events st)
             /\ App.wellFormed (fold_left App.apply events st)).
  { induction events as [|[command err|now] events IH]; intros st Hst Hall;
      simpl in *; trivial; try discriminate.
    apply IH; trivial.
    destruct (publishCommand_refs command err st) as (H1 & H2 & H3).
    destruct Hst as (Heq & Hw1 & Hw2).
    unfold App.wellFormed. rewrite H1, H2, H3. auto. }
  intro Hall. apply G; trivial.
  repeat split; simpl; lia.
Qed.

(** X17.  Until the statistics are reset for the first time, the navigation
    reads the very array the sent commands are saved in: after any number of
    published commands, a command that is published without error is the
    newest command the navigation sees, behind the commands it saw before
    (less their oldest tenth when there were 3600 of them), whereas a command
    whose publishing fails is counted as an error and not seen. *)
Theorem navigation_sees_published (events : list App.Event)
  (command : DriveMessage) :
  forallb App.isPublish events = true ->
  let st := fold_left App.apply events App.initial in
  let seen := App.navigationView st in
  App.navigationView (App.publishCommand (Some command) false st)
  = (if (3600 <=? List.length seen)%nat
     then skipn (List.length seen / 10) seen
     else seen) ++ [command]
  /\ App.navigationView (App.publishCommand (Some command) true st) = seen
  /\ Controller.totalErrors
       (App.controller (App.publishCommand (Some command) true st))
     = S (Controller.totalErrors (App.controller st)).
Proof.
  intros Hall st seen.
  destruct (shared_after_publishes events Hall) as (Heq & Hw1 & Hw2).
  fold st in Heq, Hw1, Hw2.
  repeat split.
  unfold App.navigationView, App.publishCommand, App.saveOutboundMessage,
    App.countSent, App.outboundView.
  cbn [App.commandHistory App.arrays App.outboundMsgHistory].
  unfold seen, App.navigationView. rewrite Heq.
  now rewrite readArray_writeArray.
Qed.

Lemma navigation_sees_published_witness :
  App.navigationView
    (App.publishCommand (Some (Command.setGoalGo2Ball Command.new)) false
       (fold_left App.apply [App.Publish (Some Command.new) false]
          App.initial))
  = [Command.new; Command.setGoalGo2Ball Command.new].
Proof.
  apply (navigation_sees_published [App.Publish (Some Command.new) false]
           (Command.setGoalGo2Ball Command.new)).
  reflexivity.
Defined.

Lemma readArray_app (ref : nat) (store extra : list (list DriveMessage)) :
  (ref < List.length store)%nat ->
  App.readArray ref (store ++ extra) = App.readArray ref store.
Proof. intro H. unfold App.readArray. now apply app_nth1. Qed.

(** After a reset the navigation keeps its array and the sent commands
    go to a newer one. *)
Lemma frozen_step (e : App.Event) (st : App.State) :
  (App.commandHistory st < App.outboundMsgHistory st)%nat ->
  (App.outboundMsgHistory st < List.length (App.arrays st))%nat ->
  (App.commandHistory (App.apply st e)
   < App.outboundMsgHistory (App.apply st e))%nat
  /\ (App.outboundMsgHistory (App.apply st e)
      < List.length (App.arrays (App.apply st e)))%nat
  /\ App.navigationView (App.apply st e) = App.navigationView st.
Proof.
  intros H1 H2. destruct e as [command err|now]; simpl.
  - destruct (publishCommand_refs command err st) as (E1 & E2 & E3).
    rewrite E1, E2, E3. repeat split; trivial.
    destruct command as [c|], err; simpl; trivial.
    unfold App.navigationView, App.saveOutboundMessage. simpl.
    apply readArray_writeArray_other. lia.
  - unfold App.navigationView. simpl. rewrite length_app. simpl.
    repeat split; try lia. apply readArray_app. lia.
Qed.

(** X18.  [reset] gives the variable [outboundMsgHistory] a new array and
    leaves the navigation with the old one: from then on, whatever is
    published and however often the statistics are reset again, the
    navigation sees the same commands as before the reset, while a command
    published right after the reset is the only one of the new history. *)
Theorem navigation_frozen_after_reset (st : App.State) (now : number)
  (events : list App.Event) (command : DriveMessage) :
  App.wellFormed st ->
  App.navigationView (fold_left App.apply events (App.reset now st))
  = App.navigationView st
  /\ App.outboundView
       (App.publishCommand (Some command) false (App.reset now st))
     = [command].
Proof.
  intros [Hw1 Hw2]. split.
  - assert (G : forall s,
               (App.commandHistory s < App.outboundMsgHistory s)%nat ->
               (App.outboundMsgHistory s < List.length (App.arrays s))%nat ->
               App.navigationView (fold_left App.apply events s)
               = App.navigationView s).
    { induction events as [|e events IH]; intros s H1 H2; simpl; trivial.
      destruct (frozen_step e s H1 H2) as (F1 & F2 & F3).
      rewrite IH; trivial. }
    rewrite G.
    + unfold App.navigationView. simpl. now apply readArray_app.
    + simpl. exact Hw2.
    + simpl. rewrite length_app. simpl. lia.
  - unfold App.outboundView, App.publishCommand, App.saveOutboundMessage,
      App.countSent, App.outboundView, App.reset.
    cbn [App.outboundMsgHistory App.arrays].
    rewrite readArray_writeArray by (rewrite length_app; simpl; lia).
    unfold App.readArray. rewrite nth_middle. reflexivity.
Qed.

Lemma navigation_frozen_after_reset_witness :
  App.navigationView
    (fold_left App.apply [App.Publish (Some Command.new) false]
       (App.reset (Fin 1519509836918) App.initial))
  = App.navigationView App.initial.
Proof.
  apply (navigation_frozen_after_reset App.initial (Fin 1519509836918)
           [App.Publish (Some Command.new) false] Command.new).
  split; simpl; lia.
Defined.

(** X19.  After [reset] at the time [now] every counter is 0, the received
    history is empty, and a message stamped before [now] is skipped, whatever
    the clock shows when it arrives. *)
Theorem reset_ignores_earlier_messages (st : App.State)
  (now later : number) (msg : SensorMessage) (t : number) :
  timestampMs msg = Some t ->
  Num.ltb t now = true ->
  fst (Controller.inboudMessageHandler later msg
         (App.controller (App.reset now st)))
  = Controller.Skipped
  /\ App.controller (App.reset now st)
     = Controller.mkState 0 0 0 0 now []
         (Controller.currentDrivingMode (App.controller st))
  /\ App.totalMessagesSent (App.reset now st) = 0%nat.
Proof.
  intros Ht Hlt. repeat split.
  now apply handler_skips_older with (t := t).
Qed.

Lemma reset_ignores_earlier_messages_witness :
  fst (Controller.inboudMessageHandler (Fin 1519509837100) redCar
         (App.controller (App.reset (Fin 1519509837000) App.initial)))
  = Controller.Skipped.
Proof.
  apply (reset_ignores_earlier_messages App.initial (Fin 1519509837000)
           (Fin 1519509837100) redCar (Fin 1519509836918));
    reflexivity.
Defined.

(** ** Runs of the whole handler *)




(** A failed publish raises the error counter without any rejection: the
    sample car in automatic mode, its command lost. *)
Lemma handleRun_failed_publish :
  let st := withController drivingState App.initial in
  let c' :=
    App.controller
      (fst (handleRun sampleSettings noSimulation
              [mkArrival (Fin 1519509836918 + 82)%js redCar
                 (mkVisionResponse []) true]
              (st, constantRandom 0))) in
  Controller.totalErrors c' = 1%nat
  /\ Controller.rejectedFormatMessages c' = 0%nat
  /\ Controller.rejectedOutOfOrderMessages c' = 0%nat.
Proof. repeat split. Qed.
